(** * time_series.py: the [TimeSeries] wrapper around a pandas Series

    A shallow embedding of [src/time_series.py].  The class keeps a reference
    to a pandas Series in the attribute [_data] and a label in [_name]; its
    methods validate the type of the data, read it back, insert a point and
    compute descriptive statistics.

    Python objects live in a store, so that two references to one Series see
    each other's writes.  Numbers are IEEE-754 binary64 values, taken from the
    Standard Library's [SpecFloat] with precision 53 and maximal exponent
    1024, so every operation rounds as the interpreter's [float] does.

    pandas and numpy are libraries the class calls, not part of it.  Their
    part is modelled on a Series of dtype float64 labelled by Timestamps:
    reductions skip NaN, sums are numpy's pairwise sums, [std] divides by
    n - 1, an empty reduction gives NaN, and [s[key] = value] overwrites the
    positions labelled [key] or appends a new one. *)

From Stdlib Require Import ZArith SpecFloat.
From stdpp Require Import gmap strings list pretty.

Open Scope Z_scope.

(** ** binary64 numbers *)

Module F64.

Definition float64 : Type := spec_float.

Definition prec : Z := 53.
Definition emax : Z := 1024.

Definition add : float64 → float64 → float64 := SFadd prec emax.
Definition sub : float64 → float64 → float64 := SFsub prec emax.
Definition mul : float64 → float64 → float64 := SFmul prec emax.
Definition div : float64 → float64 → float64 := SFdiv prec emax.
Definition sqrt : float64 → float64 := SFsqrt prec emax.

Definition leb : float64 → float64 → bool := SFleb.
Definition ltb : float64 → float64 → bool := SFltb.

(** [float(z)] for an integer [z], correctly rounded. *)
Definition of_Z (z : Z) : float64 := binary_normalize prec emax z 0 false.
Definition of_nat (n : nat) : float64 := of_Z (Z.of_nat n).

Definition nan : float64 := S754_nan.
Definition pinf : float64 := S754_infinity false.
Definition ninf : float64 := S754_infinity true.
Definition zero : float64 := S754_zero false.

Definition isnan (x : float64) : bool :=
  match x with S754_nan => true | _ => false end.
Definition notna (x : float64) : bool := negb (isnan x).

(** The decimal literal [n / 10^k], as the parser rounds it. *)
Definition decimal (n : Z) (k : nat) : float64 :=
  div (of_Z n) (of_Z (10 ^ Z.of_nat k)).

Definition le (x y : float64) : Prop := leb x y = true.

End F64.

Abbreviation float64 := F64.float64.
Infix "≤f" := F64.le (at level 70, no associativity).

(** ** Python values and objects *)

(** Addresses of mutable objects. *)
Definition loc : Type := positive.

(** A pandas Timestamp: nanoseconds since the epoch. *)
Definition Timestamp : Type := Z.

(** Midnight UTC at the start of the day [days] days after 1970-01-01. *)
Definition day (days : Z) : Timestamp := days * 86400 * 1000000000.

(** Values that variables and attributes hold: immutable scalars, or a
    reference to a mutable object in the store. *)
Inductive pyval : Type :=
| PyNone
| PyFloat (x : float64)
| PyStr (s : string)
| PyTimestamp (t : Timestamp)
| PyRef (l : loc).

(** A pandas Series of dtype float64 on a DatetimeIndex: labels and values in
    storage order.  Labels may repeat and need not be sorted.  The check of
    the class accepts a Series of any dtype and index; Series of other
    dtypes, on which the reductions of pandas can raise, are outside this
    model. *)
Definition Series : Type := list (Timestamp * float64).

Inductive pyobj : Type :=
| ObjSeries (s : Series)
| ObjList (xs : list pyval)
| ObjDict (kvs : list (pyval * pyval))
| ObjInstance (attrs : gmap string pyval).

Abbreviation heap := (gmap loc pyobj).

Inductive exn : Type :=
| TypeError (msg : string)
| AttributeError (attr : string).

Definition not_subscriptable : exn :=
  TypeError "object does not support item assignment".
Definition no_len : exn := TypeError "object has no len()".
Definition not_a_Series : exn :=
  TypeError "Time series data must be a pandas Series.".

(** ** Computations: a store is threaded, an exception ends the run *)

Inductive outcome (A : Type) : Type :=
| Return (a : A)
| Raise (e : exn).
Arguments Return {A} a.
Arguments Raise {A} e.

Definition Py (A : Type) : Type := heap → outcome A * heap.

#[global] Instance Py_ret : MRet Py := λ A a h, (Return a, h).

#[global] Instance Py_bind : MBind Py := λ A B k m h,
  match m h with
  | (Return a, h') => k a h'
  | (Raise e, h') => (Raise e, h')
  end.

Definition raise {A} (e : exn) : Py A := λ h, (Raise e, h).

(** Read the whole store. *)
Definition get_heap : Py heap := λ h, (Return h, h).

(** Overwrite one cell of the store. *)
Definition store (l : loc) (o : pyobj) : Py unit := λ h, (Return (), <[l := o]> h).

(** [object.__new__(TimeSeries)]: a fresh instance without attributes. *)
Definition new_instance : Py loc := λ h,
  let l := fresh (dom h) in (Return l, <[l := ObjInstance ∅]> h).

(** [obj.attr] on an instance. *)
Definition getattr (self : loc) (attr : string) : Py pyval :=
  h ← get_heap;
  match h !! self with
  | Some (ObjInstance attrs) =>
      match attrs !! attr with
      | Some v => mret v
      | None => raise (AttributeError attr)
      end
  | _ => raise (AttributeError attr)
  end.

(** [obj.attr = v] on an instance. *)
Definition setattr (self : loc) (attr : string) (v : pyval) : Py unit :=
  h ← get_heap;
  match h !! self with
  | Some (ObjInstance attrs) => store self (ObjInstance (<[attr := v]> attrs))
  | _ => raise (AttributeError attr)
  end.

(** [isinstance(v, pd.Series)]. *)
Definition isinstance_Series (h : heap) (v : pyval) : bool :=
  match v with
  | PyRef l => match h !! l with Some (ObjSeries _) => true | _ => false end
  | _ => false
  end.

(** ** numpy and pandas: the reductions the class calls

    These follow [pandas.core.nanops], which every reduction of a Series goes
    through with [skipna=True]: missing values (NaN) are masked, replaced by a
    neutral value, and the numpy reduction runs on the result. *)

Module nanops.

(** [np.putmask(values, isna(values), fill)] on a copy. *)
Definition fill_na (fill : float64) (values : list float64) : list float64 :=
  map (λ x, if F64.isnan x then fill else x) values.

(** Number of values that are not missing. *)
Definition count (values : list float64) : nat :=
  length (filter (λ x, F64.notna x = true) values).

(** numpy's [pairwise_sum] on the elements [a].  Below eight elements they
    are added one after the other.  Up to 128 elements eight accumulators
    take the elements 0 to 7, every further full block of eight is added
    to them position by position, the accumulators are added as a balanced
    tree, and the elements left over are added one after the other.
    Beyond 128 elements the array is cut near the middle, at a multiple of
    eight, and the sums of the two parts are added. *)
Fixpoint add_blocks (blocks : nat) (r a : list float64)
    : list float64 * list float64 :=
  match blocks with
  | O => (r, a)
  | S k => add_blocks k (zip_with F64.add r (take 8 a)) (drop 8 a)
  end.

(** [((r0 + r1) + (r2 + r3)) + ((r4 + r5) + (r6 + r7))]; the accumulators
    are always eight. *)
Definition add_tree (r : list float64) : float64 :=
  match r with
  | [r0; r1; r2; r3; r4; r5; r6; r7] =>
      F64.add (F64.add (F64.add r0 r1) (F64.add r2 r3))
              (F64.add (F64.add r4 r5) (F64.add r6 r7))
  | _ => F64.nan
  end.

Definition sum_block (a : list float64) : float64 :=
  let '(r, rest) := add_blocks (length a / 8 - 1) (take 8 a) (drop 8 a) in
  fold_left F64.add rest (add_tree r).

(** The recursion halves the array; [fuel] bounds its depth, and the length
    of the array is always enough (lemma [pairwise_sum_fuel]). *)
Fixpoint pairwise_sum (fuel : nat) (a : list float64) : float64 :=
  let n := length a in
  if (n <? 8)%nat then fold_left F64.add a F64.zero
  else if (n <=? 128)%nat then sum_block a
  else match fuel with
       | O => F64.nan
       | S fuel' =>
           let n2 := (n / 2 - (n / 2) mod 8)%nat in
           F64.add (pairwise_sum fuel' (take n2 a))
                   (pairwise_sum fuel' (drop n2 a))
       end.

(** [ndarray.sum()]: the reduction starts from the identity 0.0 and adds
    the pairwise sum of the elements to it. *)
Definition np_sum (values : list float64) : float64 :=
  F64.add F64.zero (pairwise_sum (length values) values).

(** [ndarray.mean()]: the sum divided by the number of elements. *)
Definition np_mean (values : list float64) : float64 :=
  F64.div (np_sum values) (F64.of_nat (length values)).

(** [np.minimum] and [np.maximum] on scalars: the first operand is kept
    when it is strictly smaller (greater) or NaN, and the second
    otherwise, also when the two are equal. *)
Definition np_minimum (a b : float64) : float64 :=
  if F64.ltb a b || F64.isnan a then a else b.
Definition np_maximum (a b : float64) : float64 :=
  if F64.ltb b a || F64.isnan a then a else b.

(** A reduction without identity, on a non-empty array. *)
Definition np_reduce (op : float64 → float64 → float64)
    (x : float64) (xs : list float64) : float64 :=
  fold_left op xs x.

(** [_maybe_null_out] with [min_count=1]: no value present, no result. *)
Definition maybe_null_out (values : list float64) (result : float64) : float64 :=
  if (count values <? 1)%nat then F64.nan else result.

Definition nanmin (values : list float64) : float64 :=
  match fill_na F64.pinf values with
  | [] => F64.nan
  | x :: xs => maybe_null_out values (np_reduce np_minimum x xs)
  end.

Definition nanmax (values : list float64) : float64 :=
  match fill_na F64.ninf values with
  | [] => F64.nan
  | x :: xs => maybe_null_out values (np_reduce np_maximum x xs)
  end.

Definition nanmean (values : list float64) : float64 :=
  let n := count values in
  let the_sum := np_sum (fill_na F64.zero values) in
  if (0 <? n)%nat then F64.div the_sum (F64.of_nat n) else F64.nan.

(** Sorting, as [np.sort] orders numbers that are not NaN. *)
Fixpoint insert_sorted (x : float64) (xs : list float64) : list float64 :=
  match xs with
  | [] => [x]
  | y :: ys => if F64.leb x y then x :: y :: ys else y :: insert_sorted x ys
  end.

Definition sort (xs : list float64) : list float64 :=
  foldr insert_sorted [] xs.

(** [np.nanmedian] on the values that are present: [np.median] takes the
    mean of the middle element of the sorted values, or of the two middle
    ones; the mean of one element x is (0.0 + x) / 1. *)
Definition nanmedian (values : list float64) : float64 :=
  let present := sort (filter (λ x, F64.notna x = true) values) in
  let n := length present in
  if (n =? 0)%nat then F64.nan
  else if Nat.odd n then np_mean (take 1 (drop (n / 2) present))
  else np_mean (take 2 (drop (n / 2 - 1) present)).

(** [nanvar]: with [count <= ddof] both the count and the denominator
    become NaN; otherwise the squared deviations from the mean are summed
    and divided by [count - ddof]. *)
Definition nanvar (ddof : nat) (values : list float64) : float64 :=
  let n := count values in
  let count_f := if (n <=? ddof)%nat then F64.nan else F64.of_nat n in
  let d := if (n <=? ddof)%nat then F64.nan
           else F64.sub (F64.of_nat n) (F64.of_nat ddof) in
  let avg := F64.div (np_sum (fill_na F64.zero values)) count_f in
  let sqr := map (λ x, if F64.isnan x then F64.zero
                       else let dev := F64.sub avg x in F64.mul dev dev)
                 values in
  F64.div (np_sum sqr) d.

Definition nanstd (ddof : nat) (values : list float64) : float64 :=
  F64.sqrt (nanvar ddof values).

End nanops.

(** ** Methods of [pd.Series] *)

Module pd.

Definition index (s : Series) : list Timestamp := s.*1.
Definition values (s : Series) : list float64 := s.*2.

Definition len (s : Series) : nat := length s.

Definition mean (s : Series) : float64 := nanops.nanmean (values s).
Definition median (s : Series) : float64 := nanops.nanmedian (values s).
(** [Series.std()] has [ddof=1]. *)
Definition std (s : Series) : float64 := nanops.nanstd 1 (values s).
Definition min (s : Series) : float64 := nanops.nanmin (values s).
Definition max (s : Series) : float64 := nanops.nanmax (values s).

Definition has_label (key : Timestamp) (s : Series) : bool :=
  existsb (λ p, p.1 =? key) s.

(** [s[key] = value]: every position labelled [key] takes the value; a
    label that is absent is appended with it. *)
Definition setitem (s : Series) (key : Timestamp) (value : float64) : Series :=
  if has_label key s
  then map (λ p, if p.1 =? key then (p.1, value) else p) s
  else s ++ [(key, value)].

End pd.

(** ** Operations on a value, dispatched on the object it refers to *)

(** [dict.__setitem__] for a Timestamp key: equal keys are Timestamps of the
    same instant; insertion order is kept. *)
Definition key_is (t : Timestamp) (k : pyval) : bool :=
  match k with PyTimestamp t' => t' =? t | _ => false end.

Definition dict_setitem (kvs : list (pyval * pyval)) (t : Timestamp) (v : pyval)
    : list (pyval * pyval) :=
  if existsb (λ p, key_is t p.1) kvs
  then map (λ p, if key_is t p.1 then (p.1, v) else p) kvs
  else kvs ++ [(PyTimestamp t, v)].

(** [v.method()] for a method that only a Series has. *)
Definition call_Series {A} (method : string) (f : Series → A) (v : pyval) : Py A :=
  h ← get_heap;
  match v with
  | PyRef l =>
      match h !! l with
      | Some (ObjSeries s) => mret (f s)
      | _ => raise (AttributeError method)
      end
  | _ => raise (AttributeError method)
  end.

(** [len(v)]. *)
Definition py_len (v : pyval) : Py nat :=
  h ← get_heap;
  match v with
  | PyStr s => mret (String.length s)
  | PyRef l =>
      match h !! l with
      | Some (ObjSeries s) => mret (pd.len s)
      | Some (ObjList xs) => mret (length xs)
      | Some (ObjDict kvs) => mret (length kvs)
      | _ => raise no_len
      end
  | _ => raise no_len
  end.

(** [v[timestamp] = value]: in place, on the object [v] refers to. *)
Definition py_setitem (v : pyval) (timestamp : Timestamp) (value : float64) : Py unit :=
  h ← get_heap;
  match v with
  | PyRef l =>
      match h !! l with
      | Some (ObjSeries s) => store l (ObjSeries (pd.setitem s timestamp value))
      | Some (ObjDict kvs) =>
          store l (ObjDict (dict_setitem kvs timestamp (PyFloat value)))
      | _ => raise not_subscriptable
      end
  | _ => raise not_subscriptable
  end.

(** An f-string field [{v}] is [format(v, "")]: a string goes in as it is.
    Any other value is rendered by its own [__str__], which is code outside
    this class and can raise (a name that refers back to the instance makes
    [str] recurse until RecursionError); that computation is the parameter
    [str_of]. *)
Definition py_format (str_of : pyval → Py string) (v : pyval) : Py string :=
  match v with
  | PyStr s => mret s
  | _ => str_of v
  end.

(** ** The class [TimeSeries] *)

(** The dictionary that [get_summary] returns, one field per key. *)
Record summary : Type := Summary {
  s_mean : float64;
  s_median : float64;
  s_std : float64;
  s_min : float64;
  s_max : float64;
  s_length : nat
}.

Module TimeSeries.

Definition default_name : pyval := PyStr "Unnamed Series".

(** Raises [TypeError] unless [data] is a pandas Series. *)
Definition _validate_input_data (self : loc) (data : pyval) : Py unit :=
  h ← get_heap;
  if negb (isinstance_Series h data)
  then raise not_a_Series
  else mret ().

Definition __init__ (self : loc) (data : pyval) (name : pyval) : Py unit :=
  _validate_input_data self data;;
  setattr self "_data" data;;
  setattr self "_name" name.

(** The call [TimeSeries(data, name)]: allocate, initialise, hand out the
    reference.  If [__init__] raises, the caller gets no reference. *)
Definition create (data : pyval) (name : pyval) : Py loc :=
  self ← new_instance;
  __init__ self data name;;
  mret self.

(** The property [data]: getter and setter. *)
Definition data (self : loc) : Py pyval :=
  getattr self "_data".

Definition data_setter (self : loc) (new_data : pyval) : Py unit :=
  _validate_input_data self new_data;;
  setattr self "_data" new_data.

(** The property [name]: getter and setter. *)
Definition name (self : loc) : Py pyval :=
  getattr self "_name".

Definition name_setter (self : loc) (new_name : pyval) : Py unit :=
  setattr self "_name" new_name.

(** The entries of the dictionary are evaluated in the order written, each
    one reading [self._data] again. *)
Definition get_summary (self : loc) : Py summary :=
  mean ← getattr self "_data" ≫= call_Series "mean" pd.mean;
  median ← getattr self "_data" ≫= call_Series "median" pd.median;
  std ← getattr self "_data" ≫= call_Series "std" pd.std;
  min ← getattr self "_data" ≫= call_Series "min" pd.min;
  max ← getattr self "_data" ≫= call_Series "max" pd.max;
  length ← getattr self "_data" ≫= py_len;
  mret (Summary mean median std min max length).

Definition add_value (self : loc) (timestamp : Timestamp) (value : float64)
    : Py unit :=
  d ← getattr self "_data";
  py_setitem d timestamp value.

(** The text forms: the fields are evaluated from left to right, and
    [len] of a non-negative number prints in decimal. *)
Definition __repr__ (str_of : pyval → Py string) (self : loc) : Py string :=
  name ← getattr self "_name" ≫= py_format str_of;
  length ← getattr self "_data" ≫= py_len;
  mret ("TimeSeries(name='" +:+ name +:+ "', length=" +:+ pretty length +:+ ")").

Definition __str__ (str_of : pyval → Py string) (self : loc) : Py string :=
  name ← getattr self "_name" ≫= py_format str_of;
  length ← getattr self "_data" ≫= py_len;
  mret ("TimeSeries: " +:+ name +:+ ", Length: " +:+ pretty length).

End TimeSeries.

(** The summary of a Series, as [get_summary] assembles it. *)
Definition summarize (s : Series) : summary :=
  Summary (pd.mean s) (pd.median s) (pd.std s) (pd.min s) (pd.max s) (pd.len s).

(** The store after a successful [TimeSeries(data, name)]. *)
Definition created (h : heap) (data name : pyval) : heap :=
  <[fresh (dom h) := ObjInstance (<["_name" := name]> (<["_data" := data]> ∅))]> h.

(** ** The scenarios of the specification *)

Definition d2023_01_01 : Timestamp := day 19358.
Definition d2023_01_02 : Timestamp := day 19359.
Definition d2023_01_03 : Timestamp := day 19360.
Definition d2023_01_04 : Timestamp := day 19361.

Definition f1_0 : float64 := F64.decimal 10 1.
Definition f2_0 : float64 := F64.decimal 20 1.
Definition f3_0 : float64 := F64.decimal 30 1.
Definition f5_0 : float64 := F64.decimal 50 1.
Definition f0_1 : float64 := F64.decimal 1 1.

Definition series_S : Series :=
  [(d2023_01_01, f1_0); (d2023_01_02, f3_0); (d2023_01_03, f2_0)].

(** A store with the Series of the scenario at address 1, an empty Series at
    2, a list of numbers at 3 and a dictionary at 4. *)
Definition heap0 : heap :=
  <[1%positive := ObjSeries series_S]>
  (<[2%positive := ObjSeries []]>
  (<[3%positive := ObjList [PyFloat f1_0; PyFloat f2_0]]>
  (<[4%positive := ObjDict [(PyStr "a", PyFloat f1_0)]]> ∅))).

(** Three observations of 0.1, and three of 0.7. *)
Definition f0_7 : float64 := F64.decimal 7 1.

Definition three_tenths : Series :=
  [(d2023_01_01, f0_1); (d2023_01_02, f0_1); (d2023_01_03, f0_1)].
Definition three_sevenths : Series :=
  [(d2023_01_01, f0_7); (d2023_01_02, f0_7); (d2023_01_03, f0_7)].

(** [ts = TimeSeries(data, name); ts.get_summary()]. *)
Definition summary_of (data name : pyval) : Py summary :=
  self ← TimeSeries.create data name;
  TimeSeries.get_summary self.

(** [ts.data[timestamp] = value; ts.get_summary()]: a client writes through
    the reference that the getter returned, then asks for the summary. *)
Definition write_through_data (self : loc) (timestamp : Timestamp)
    (value : float64) : Py summary :=
  d ← TimeSeries.data self;
  py_setitem d timestamp value;;
  TimeSeries.get_summary self.


Definition d2022_12_31 : Timestamp := day 19357.

(** A store in which the attribute [_data] of the instance at 2 refers to
    the dictionary at 1.  No call of the class builds it; an assignment to
    the attribute from outside does. *)
Definition heap_dict : heap :=
  <[2%positive := ObjInstance (<["_name" := PyStr "S"]> (<["_data" := PyRef 1%positive]> ∅))]>
  (<[1%positive := ObjDict []]> ∅).

(** The instance made from the Series of the scenario, and the store with
    it. *)
Definition ts0 : loc := fresh (dom heap0).
Definition heap1 : heap := created heap0 (PyRef 1%positive) (PyStr "S").

(** ** The order of binary64 numbers

    [F64.leb] is IEEE comparison: false whenever an operand is NaN, and on
    the other numbers the order of [rank]: sign class first, then exponent,
    then mantissa (both reversed for negative numbers). *)

Definition rank (x : float64) : Z * Z * Z :=
  match x with
  | S754_infinity true => (-2, 0, 0)
  | S754_finite true m e => (-1, - e, - Z.pos m)
  | S754_zero _ | S754_nan => (0, 0, 0)
  | S754_finite false m e => (1, e, Z.pos m)
  | S754_infinity false => (2, 0, 0)
  end.

Definition lex_le (a b : Z * Z * Z) : Prop :=
  a.1.1 < b.1.1 ∨
  (a.1.1 = b.1.1 ∧ (a.1.2 < b.1.2 ∨ (a.1.2 = b.1.2 ∧ a.2 ≤ b.2))).

(** ** States of a [TimeSeries] *)

(** In store [h] the instance [self] keeps in [_data] a reference to the
    Series object at [l], whose content is [s]. *)
Definition stores (h : heap) (self l : loc) (s : Series) : Prop :=
  ∃ attrs, h !! self = Some (ObjInstance attrs)
         ∧ attrs !! "_data" = Some (PyRef l)
         ∧ h !! l = Some (ObjSeries s).

(** As [stores], and the attribute [_name] holds [nm]: the instance is as
    [__init__] leaves it. *)
Definition initialised (h : heap) (self l : loc) (s : Series) (nm : pyval) : Prop :=
  ∃ attrs, h !! self = Some (ObjInstance attrs)
         ∧ attrs !! "_data" = Some (PyRef l)
         ∧ attrs !! "_name" = Some nm
         ∧ h !! l = Some (ObjSeries s).

(** Two instances made from one value; a point is added through the first
    and the summary is asked of the second. *)
Definition two_views (data : pyval) (timestamp : Timestamp) (value : float64)
    : Py summary :=
  a ← TimeSeries.create data (PyStr "a");
  b ← TimeSeries.create data (PyStr "b");
  TimeSeries.add_value a timestamp value;;
  TimeSeries.get_summary b.

(** [ts.data = new_data; ts.add_value(timestamp, value); ts.get_summary()]. *)
Definition replace_add_summary (self : loc) (new_data : pyval)
    (timestamp : Timestamp) (value : float64) : Py summary :=
  TimeSeries.data_setter self new_data;;
  TimeSeries.add_value self timestamp value;;
  TimeSeries.get_summary self.

(** A rendering of values that are not strings, for the examples: [None]
    prints, anything else raises. *)
Definition str_example (v : pyval) : Py string :=
  match v with
  | PyNone => mret "None"
  | _ => raise (AttributeError "__str__")
  end.

(** A computation that leaves the store as it found it, whatever it
    returns or raises. *)
Definition read_only {A} (m : Py A) : Prop := ∀ h, (m h).2 = h.


(** All values are numbers. *)
Definition numeric (s : Series) : Prop :=
  Forall (λ x, F64.isnan x = false) (pd.values s).

(** Labels strictly ascending: sorted and without repetition. *)
Fixpoint ascending (ts : list Timestamp) : bool :=
  match ts with
  | t :: (t' :: _) as rest => (t <? t') && ascending rest
  | _ => true
  end.

(** The calls a client can make on an instance.  [plot], [__repr__] and
    [__str__] write nothing to [_data] or [_name], whether they return or
    raise; in [reachable] below they are steps of the environment. *)
Inductive call : Type :=
| CallData
| CallDataSetter (new_data : pyval)
| CallName
| CallNameSetter (new_name : pyval)
| CallGetSummary
| CallAddValue (timestamp : Timestamp) (value : float64).

Definition run_call (self : loc) (c : call) : Py unit :=
  match c with
  | CallData => TimeSeries.data self;; mret ()
  | CallDataSetter new_data => TimeSeries.data_setter self new_data
  | CallName => TimeSeries.name self;; mret ()
  | CallNameSetter new_name => TimeSeries.name_setter self new_name
  | CallGetSummary => TimeSeries.get_summary self;; mret ()
  | CallAddValue timestamp value => TimeSeries.add_value self timestamp value
  end.

(** What the rest of the program may do to the store between two calls:
    it leaves the attributes of [self] alone, and an object that is a Series
    stays one (its content may change through any reference to it). *)
Definition env_step (self : loc) (h h' : heap) : Prop :=
  h' !! self = h !! self ∧
  ∀ l s, h !! l = Some (ObjSeries s) → ∃ s', h' !! l = Some (ObjSeries s').

(** The stores in which an instance made by [TimeSeries(data, name)] can be
    found later; a call that raises is a step as well. *)
Inductive reachable (self : loc) : heap → Prop :=
| reach_create h0 data name h :
    TimeSeries.create data name h0 = (Return self, h) →
    reachable self h
| reach_call h c r h' :
    reachable self h →
    run_call self c h = (r, h') →
    reachable self h'
| reach_env h h' :
    reachable self h →
    env_step self h h' →
    reachable self h'.

(** What a call does to an instance whose attributes are [attrs] and whose
    Series, at [l], is [s]: the result and the store afterwards. *)
Inductive effect (h : heap) (self l : loc) (s : Series)
    (attrs : gmap string pyval) : call → outcome unit → heap → Prop :=
| effect_data : effect h self l s attrs CallData (Return ()) h
| effect_name : effect h self l s attrs CallName (Return ()) h
| effect_get_summary : effect h self l s attrs CallGetSummary (Return ()) h
| effect_data_setter_fail new_data :
    isinstance_Series h new_data = false →
    effect h self l s attrs (CallDataSetter new_data) (Raise not_a_Series) h
| effect_data_setter_ok l' s' :
    h !! l' = Some (ObjSeries s') →
    effect h self l s attrs (CallDataSetter (PyRef l')) (Return ())
           (<[self := ObjInstance (<["_data" := PyRef l']> attrs)]> h)
| effect_name_setter new_name :
    effect h self l s attrs (CallNameSetter new_name) (Return ())
           (<[self := ObjInstance (<["_name" := new_name]> attrs)]> h)
| effect_add_value timestamp value :
    effect h self l s attrs (CallAddValue timestamp value) (Return ())
           (<[l := ObjSeries (pd.setitem s timestamp value)]> h).

(** * Properties *)

(** ** Order of binary64 numbers *)

Section FloatOrder.

Lemma leb_rank (x y : float64) :
  F64.leb x y = true ↔
  F64.isnan x = false ∧ F64.isnan y = false ∧ lex_le (rank x) (rank y).
Proof.
  unfold F64.leb, SFleb, lex_le.
  destruct x as [[]|[]| |[] m e], y as [[]|[]| |[] m' e']; simpl;
    try (split; [intros; repeat split; (lia || done) | intros (? & ? & ?); (lia || done)]).
  all: change (Pos.compare_cont Eq m m') with (m ?= m')%positive.
  all: destruct (Z.compare_spec e e'), (Pos.compare_spec m m'); simpl;
    split; try done; try lia; intros; repeat split; try done; lia.
Qed.

Lemma le_notna_l (x y : float64) : x ≤f y → F64.isnan x = false.
Proof. intros H. by apply leb_rank in H as (? & ? & ?). Qed.

Lemma le_notna_r (x y : float64) : x ≤f y → F64.isnan y = false.
Proof. intros H. by apply leb_rank in H as (? & ? & ?). Qed.

Lemma le_refl (x : float64) : F64.isnan x = false → x ≤f x.
Proof. intros H. apply leb_rank. unfold lex_le. repeat split; try done. lia. Qed.

Lemma le_trans (x y z : float64) : x ≤f y → y ≤f z → x ≤f z.
Proof.
  intros (? & ? & Hxy)%leb_rank (? & ? & Hyz)%leb_rank.
  apply leb_rank. repeat split; try done.
  unfold lex_le in *. lia.
Qed.

Lemma le_total (x y : float64) :
  F64.isnan x = false → F64.isnan y = false → x ≤f y ∨ y ≤f x.
Proof.
  intros Hx Hy.
  destruct (decide (lex_le (rank x) (rank y))) as [H|H].
  - left. by apply leb_rank.
  - right. apply leb_rank. repeat split; try done.
    unfold lex_le in *. lia.
Qed.

Lemma ltb_rank (x y : float64) :
  F64.ltb x y = true ↔
  F64.isnan x = false ∧ F64.isnan y = false ∧ ¬ lex_le (rank y) (rank x).
Proof.
  unfold F64.ltb, SFltb, lex_le.
  destruct x as [[]|[]| |[] m e], y as [[]|[]| |[] m' e']; simpl;
    try (split; [intros; repeat split; (lia || done) | intros (? & ? & ?); (lia || done)]).
  all: change (Pos.compare_cont Eq m m') with (m ?= m')%positive.
  all: destruct (Z.compare_spec e e'), (Pos.compare_spec m m'); simpl;
    split; try done; try lia; intros; repeat split; try done; lia.
Qed.

Lemma ltb_le (x y : float64) : F64.ltb x y = true → x ≤f y.
Proof.
  intros (? & ? & H)%ltb_rank. apply leb_rank. repeat split; try done.
  unfold lex_le in *. lia.
Qed.

Lemma ltb_false_le (x y : float64) :
  F64.isnan x = false → F64.isnan y = false → F64.ltb x y = false → y ≤f x.
Proof.
  intros Hx Hy Hlt. apply leb_rank. repeat split; try done.
  destruct (decide (lex_le (rank y) (rank x))) as [H|H]; [done|].
  assert (F64.ltb x y = true) by (by apply ltb_rank). congruence.
Qed.

End FloatOrder.

(** ** Minimum and maximum *)

Section MinMax.

Import nanops.

Lemma np_minimum_cases (a b : float64) :
  F64.isnan a = false → F64.isnan b = false →
  (np_minimum a b = a ∧ a ≤f b) ∨ (np_minimum a b = b ∧ b ≤f a).
Proof.
  intros Ha Hb. unfold np_minimum. rewrite Ha, orb_false_r.
  destruct (F64.ltb a b) eqn:E.
  - left. split; [done|by apply ltb_le].
  - right. split; [done|by apply ltb_false_le].
Qed.

Lemma np_maximum_cases (a b : float64) :
  F64.isnan a = false → F64.isnan b = false →
  (np_maximum a b = a ∧ b ≤f a) ∨ (np_maximum a b = b ∧ a ≤f b).
Proof.
  intros Ha Hb. unfold np_maximum. rewrite Ha, orb_false_r.
  destruct (F64.ltb b a) eqn:E.
  - left. split; [done|by apply ltb_le].
  - right. split; [done|by apply ltb_false_le].
Qed.

(** The running minimum is below the start value and every element. *)
Lemma reduce_minimum_le (xs : list float64) : ∀ x : float64,
  Forall (λ y, F64.isnan y = false) (x :: xs) →
  F64.isnan (np_reduce np_minimum x xs) = false ∧
  Forall (λ y, np_reduce np_minimum x xs ≤f y) (x :: xs).
Proof.
  induction xs as [|a xs IH]; intros x Hall.
  - apply Forall_cons in Hall as [Hx _]. simpl.
    split; [done|]. constructor; [by apply le_refl | constructor].
  - apply Forall_cons in Hall as [Hx Hall].
    pose proof Hall as [Ha Hxs]%Forall_cons.
    unfold np_reduce in *. simpl.
    destruct (np_minimum_cases x a Hx Ha) as [[-> Hle]|[-> Hle]].
    + destruct (IH x) as [Hn Hf]; [by constructor|].
      apply Forall_cons in Hf as [Hfx Hfxs].
      split; [done|]. constructor; [done|].
      constructor; [by eapply le_trans | done].
    + destruct (IH a) as [Hn Hf]; [done|].
      pose proof Hf as [Hfa _]%Forall_cons.
      split; [done|]. constructor; [by eapply le_trans | done].
Qed.

Lemma reduce_maximum_ge (xs : list float64) : ∀ x : float64,
  Forall (λ y, F64.isnan y = false) (x :: xs) →
  F64.isnan (np_reduce np_maximum x xs) = false ∧
  Forall (λ y, y ≤f np_reduce np_maximum x xs) (x :: xs).
Proof.
  induction xs as [|a xs IH]; intros x Hall.
  - apply Forall_cons in Hall as [Hx _]. simpl.
    split; [done|]. constructor; [by apply le_refl | constructor].
  - apply Forall_cons in Hall as [Hx Hall].
    pose proof Hall as [Ha Hxs]%Forall_cons.
    unfold np_reduce in *. simpl.
    destruct (np_maximum_cases x a Hx Ha) as [[-> Hle]|[-> Hle]].
    + destruct (IH x) as [Hn Hf]; [by constructor|].
      apply Forall_cons in Hf as [Hfx Hfxs].
      split; [done|]. constructor; [done|].
      constructor; [by eapply le_trans | done].
    + destruct (IH a) as [Hn Hf]; [done|].
      pose proof Hf as [Hfa _]%Forall_cons.
      split; [done|]. constructor; [by eapply le_trans | done].
Qed.

Lemma fill_na_notna (fill : float64) (values : list float64) :
  F64.isnan fill = false →
  Forall (λ y, F64.isnan y = false) (fill_na fill values).
Proof.
  intros Hfill. unfold fill_na. apply Forall_map, Forall_forall.
  intros x _. simpl. by destruct (F64.isnan x) eqn:E.
Qed.

Lemma elem_of_fill_na (fill v : float64) (values : list float64) :
  v ∈ values → F64.isnan v = false → v ∈ fill_na fill values.
Proof.
  intros Hin Hv. unfold fill_na. apply list_elem_of_fmap.
  exists v. by rewrite Hv.
Qed.

Lemma count_pos (v : float64) (values : list float64) :
  v ∈ values → F64.isnan v = false → (count values <? 1)%nat = false.
Proof.
  intros Hin Hv. apply Nat.ltb_ge. unfold count.
  assert (v ∈ filter (λ x, F64.notna x = true) values) as Hf.
  { apply list_elem_of_filter. split; [|done]. unfold F64.notna. by rewrite Hv. }
  destruct (filter _ values); [by apply elem_of_nil in Hf | simpl; lia].
Qed.

(** A number among the values lies between the minimum and the maximum
    that pandas reports. *)
Lemma nanmin_le (v : float64) (values : list float64) :
  v ∈ values → F64.isnan v = false → nanmin values ≤f v.
Proof.
  intros Hin Hv. unfold nanmin.
  pose proof (fill_na_notna F64.pinf values eq_refl) as Hall.
  pose proof (elem_of_fill_na F64.pinf v values Hin Hv) as Hin'.
  destruct (fill_na F64.pinf values) as [|x xs]; [by apply elem_of_nil in Hin'|].
  unfold maybe_null_out. rewrite (count_pos v values Hin Hv).
  destruct (reduce_minimum_le xs x Hall) as [_ Hf].
  by eapply Forall_forall in Hf.
Qed.

Lemma nanmax_ge (v : float64) (values : list float64) :
  v ∈ values → F64.isnan v = false → v ≤f nanmax values.
Proof.
  intros Hin Hv. unfold nanmax.
  pose proof (fill_na_notna F64.ninf values eq_refl) as Hall.
  pose proof (elem_of_fill_na F64.ninf v values Hin Hv) as Hin'.
  destruct (fill_na F64.ninf values) as [|x xs]; [by apply elem_of_nil in Hin'|].
  unfold maybe_null_out. rewrite (count_pos v values Hin Hv).
  destruct (reduce_maximum_ge xs x Hall) as [_ Hf].
  by eapply Forall_forall in Hf.
Qed.








End MinMax.

(** ** Running computations *)

Section Run.

Context {A B : Type}.

Lemma bind_return (m : Py A) (k : A → Py B) (h h' : heap) (a : A) :
  m h = (Return a, h') → (m ≫= k) h = k a h'.
Proof. intros H. unfold mbind, Py_bind. by rewrite H. Qed.

Lemma bind_raise (m : Py A) (k : A → Py B) (h h' : heap) (e : exn) :
  m h = (Raise e, h') → (m ≫= k) h = (Raise e, h').
Proof. intros H. unfold mbind, Py_bind. by rewrite H. Qed.

End Run.

Lemma getattr_run (h : heap) (self : loc) (attrs : gmap string pyval)
    (attr : string) (v : pyval) :
  h !! self = Some (ObjInstance attrs) → attrs !! attr = Some v →
  getattr self attr h = (Return v, h).
Proof.
  intros Hself Hattr. unfold getattr, mbind, Py_bind, get_heap.
  by rewrite Hself, Hattr.
Qed.

Lemma setattr_run (h : heap) (self : loc) (attrs : gmap string pyval)
    (attr : string) (v : pyval) :
  h !! self = Some (ObjInstance attrs) →
  setattr self attr v h
  = (Return (), <[self := ObjInstance (<[attr := v]> attrs)]> h).
Proof.
  intros Hself. unfold setattr, mbind, Py_bind, get_heap. by rewrite Hself.
Qed.

Lemma validate_ok (h : heap) (self : loc) (data : pyval) :
  isinstance_Series h data = true →
  TimeSeries._validate_input_data self data h = (Return (), h).
Proof.
  intros H. unfold TimeSeries._validate_input_data, mbind, Py_bind, get_heap.
  by rewrite H.
Qed.

Lemma validate_fail (h : heap) (self : loc) (data : pyval) :
  isinstance_Series h data = false →
  TimeSeries._validate_input_data self data h
  = (Raise not_a_Series, h).
Proof.
  intros H. unfold TimeSeries._validate_input_data, mbind, Py_bind, get_heap.
  by rewrite H.
Qed.

Lemma isinstance_Series_ref (h : heap) (v : pyval) :
  isinstance_Series h v = true ↔ ∃ l s, v = PyRef l ∧ h !! l = Some (ObjSeries s).
Proof.
  split.
  - destruct v as [| | | |l]; simpl; try done.
    destruct (h !! l) as [[s| | |]|] eqn:E; try done. by exists l, s.
  - intros (l & s & -> & Hl). simpl. by rewrite Hl.
Qed.

(** An instance and a Series are different objects. *)
Lemma stores_ne (h : heap) (self l : loc) (s : Series) :
  stores h self l s → self ≠ l.
Proof. intros (attrs & Hself & _ & Hl) ->. congruence. Qed.

Lemma data_run (h : heap) (self l : loc) (s : Series) :
  stores h self l s → TimeSeries.data self h = (Return (PyRef l), h).
Proof. intros (attrs & Hself & Hd & _). by eapply getattr_run. Qed.

Lemma call_Series_run {A} (method : string) (f : Series → A) (h : heap)
    (l : loc) (s : Series) :
  h !! l = Some (ObjSeries s) →
  call_Series method f (PyRef l) h = (Return (f s), h).
Proof. intros Hl. unfold call_Series, mbind, Py_bind, get_heap. by rewrite Hl. Qed.

Lemma get_summary_run (h : heap) (self l : loc) (s : Series) :
  stores h self l s →
  TimeSeries.get_summary self h = (Return (summarize s), h).
Proof.
  intros (attrs & Hself & Hd & Hl). unfold TimeSeries.get_summary.
  pose proof (getattr_run h self attrs "_data" (PyRef l) Hself Hd) as Hg.
  repeat (erewrite bind_return;
          [|erewrite bind_return; [|exact Hg]; by apply call_Series_run]).
  erewrite bind_return.
  2:{ erewrite bind_return; [|exact Hg].
      unfold py_len, mbind, Py_bind, get_heap. by rewrite Hl. }
  done.
Qed.

Lemma add_value_run (h : heap) (self l : loc) (s : Series)
    (timestamp : Timestamp) (value : float64) :
  stores h self l s →
  TimeSeries.add_value self timestamp value h
  = (Return (), <[l := ObjSeries (pd.setitem s timestamp value)]> h).
Proof.
  intros (attrs & Hself & Hd & Hl). unfold TimeSeries.add_value.
  erewrite bind_return; [|by eapply getattr_run].
  unfold py_setitem, mbind, Py_bind, get_heap. by rewrite Hl.
Qed.

Lemma stores_update (h : heap) (self l : loc) (s s' : Series) :
  stores h self l s → stores (<[l := ObjSeries s']> h) self l s'.
Proof.
  intros Hst. pose proof (stores_ne _ _ _ _ Hst) as Hne.
  destruct Hst as (attrs & Hself & Hd & Hl).
  exists attrs. rewrite lookup_insert_ne, lookup_insert_eq by done. done.
Qed.

Lemma data_setter_ok (h : heap) (self : loc) (attrs : gmap string pyval)
    (new_data : pyval) :
  h !! self = Some (ObjInstance attrs) →
  isinstance_Series h new_data = true →
  TimeSeries.data_setter self new_data h
  = (Return (), <[self := ObjInstance (<["_data" := new_data]> attrs)]> h).
Proof.
  intros Hself Hs. unfold TimeSeries.data_setter.
  erewrite bind_return; [|by apply validate_ok].
  by apply setattr_run.
Qed.

Lemma data_setter_fail (h : heap) (self : loc) (new_data : pyval) :
  isinstance_Series h new_data = false →
  TimeSeries.data_setter self new_data h
  = (Raise not_a_Series, h).
Proof.
  intros Hs. unfold TimeSeries.data_setter.
  erewrite bind_raise; [done|by apply validate_fail].
Qed.

Lemma fresh_None (h : heap) : h !! fresh (dom h) = None.
Proof. apply not_elem_of_dom, is_fresh. Qed.

Lemma create_ok (h : heap) (data name : pyval) :
  isinstance_Series h data = true →
  TimeSeries.create data name h = (Return (fresh (dom h)), created h data name).
Proof.
  intros Hs. unfold TimeSeries.create, new_instance.
  unfold mbind at 1. unfold Py_bind at 1.
  set (self := fresh (dom h)). set (h1 := <[self := ObjInstance ∅]> h).
  assert (isinstance_Series h1 data = true) as Hs1.
  { apply isinstance_Series_ref in Hs as (l & s & -> & Hl).
    apply isinstance_Series_ref. exists l, s. split; [done|].
    subst h1. rewrite lookup_insert_ne; [done|].
    intros <-. subst self. by rewrite fresh_None in Hl. }
  erewrite bind_return with (a := ()).
  2:{ unfold TimeSeries.__init__.
      erewrite bind_return; [|by apply validate_ok].
      erewrite bind_return.
      2:{ eapply setattr_run. subst h1. apply lookup_insert_eq. }
      eapply setattr_run. apply lookup_insert_eq. }
  unfold mret, Py_ret, created. subst h1. by rewrite !insert_insert_eq.
Qed.

Lemma create_fail (h : heap) (data name : pyval) :
  isinstance_Series h data = false →
  TimeSeries.create data name h
  = (Raise not_a_Series, <[fresh (dom h) := ObjInstance ∅]> h).
Proof.
  intros Hs. unfold TimeSeries.create, new_instance.
  unfold mbind at 1. unfold Py_bind at 1.
  set (self := fresh (dom h)). set (h1 := <[self := ObjInstance ∅]> h).
  assert (isinstance_Series h1 data = false) as Hs1.
  { destruct data as [| | | |l]; try done. simpl in *. subst h1.
    destruct (decide (self = l)) as [<-|Hne].
    - by rewrite lookup_insert_eq.
    - by rewrite lookup_insert_ne. }
  erewrite bind_raise; [done|].
  unfold TimeSeries.__init__. erewrite bind_raise; [done|by apply validate_fail].
Qed.

Lemma name_run (h : heap) (self : loc) (attrs : gmap string pyval) (v : pyval) :
  h !! self = Some (ObjInstance attrs) → attrs !! "_name" = Some v →
  TimeSeries.name self h = (Return v, h).
Proof. intros. by eapply getattr_run. Qed.

Lemma stores_created (h : heap) (l : loc) (s : Series) (name : pyval) :
  h !! l = Some (ObjSeries s) →
  stores (created h (PyRef l) name) (fresh (dom h)) l s.
Proof.
  intros Hl. unfold created.
  exists (<["_name" := name]> (<["_data" := PyRef l]> ∅)).
  split; [apply lookup_insert_eq|]. split; [done|].
  rewrite lookup_insert_ne; [done|].
  intros E. rewrite <- E, fresh_None in Hl. done.
Qed.

(** ** Construction and the accessors *)

(** C1: constructing a TimeSeries from a value that is not a pandas Series
    raises TypeError and hands out no object: the objects of the store are
    as before, and the only new cell is the instance that [__init__] left
    without attributes.  Constructing from a Series, of any length,
    succeeds, and the new instance holds the data and the name. *)
Theorem construction_checks_type (h : heap) (data name : pyval) :
  (isinstance_Series h data = false →
   ∃ h', TimeSeries.create data name h = (Raise not_a_Series, h')
       ∧ (∀ l o, h !! l = Some o → h' !! l = Some o)
       ∧ (∀ l attrs, h' !! l = Some (ObjInstance attrs) →
                     h !! l = None → attrs = ∅))
  ∧ (isinstance_Series h data = true →
     ∃ self h', TimeSeries.create data name h = (Return self, h')
              ∧ h !! self = None
              ∧ TimeSeries.data self h' = (Return data, h')
              ∧ TimeSeries.name self h' = (Return name, h')).
Proof.
  split; intros Hs.
  - exists (<[fresh (dom h) := ObjInstance ∅]> h).
    split; [by apply create_fail|]. split.
    + intros l o Hl. rewrite lookup_insert_ne; [done|].
      intros E. rewrite <- E, fresh_None in Hl. done.
    + intros l attrs Hl Hnone.
      destruct (decide (fresh (dom h) = l)) as [<-|Hne].
      * rewrite lookup_insert_eq in Hl. congruence.
      * rewrite lookup_insert_ne in Hl by done. congruence.
  - exists (fresh (dom h)), (created h data name).
    split; [by apply create_ok|]. split; [apply fresh_None|].
    unfold created. split.
    + eapply getattr_run; [apply lookup_insert_eq|done].
    + eapply name_run; [apply lookup_insert_eq|]. apply lookup_insert_eq.
Qed.

Lemma construction_checks_type_witness :
  (∃ h', TimeSeries.create (PyRef 3%positive) (PyStr "S") heap0
         = (Raise not_a_Series, h')
       ∧ (∀ l o, heap0 !! l = Some o → h' !! l = Some o)
       ∧ (∀ l attrs, h' !! l = Some (ObjInstance attrs) →
                     heap0 !! l = None → attrs = ∅))
  ∧ (∃ self h', TimeSeries.create (PyRef 2%positive) TimeSeries.default_name heap0
                = (Return self, h')
              ∧ heap0 !! self = None
              ∧ TimeSeries.data self h' = (Return (PyRef 2%positive), h')
              ∧ TimeSeries.name self h' = (Return TimeSeries.default_name, h')).
Proof.
  split.
  - apply (construction_checks_type heap0 (PyRef 3%positive) (PyStr "S")).
    reflexivity.
  - apply (construction_checks_type heap0 (PyRef 2%positive) TimeSeries.default_name).
    reflexivity.
Defined.

(** C2: assigning to [data] either replaces the stored reference by the new
    value, when that is a Series, touching nothing else in the store and no
    other attribute; or it raises TypeError and the store, with the
    reference kept before, is exactly as it was. *)
Theorem data_setter_all_or_nothing (h : heap) (self l : loc) (s : Series)
    (new_data : pyval) :
  stores h self l s →
  (isinstance_Series h new_data = true →
   ∃ h' attrs attrs',
     TimeSeries.data_setter self new_data h = (Return (), h')
     ∧ TimeSeries.data self h' = (Return new_data, h')
     ∧ (∀ l', l' ≠ self → h' !! l' = h !! l')
     ∧ h !! self = Some (ObjInstance attrs)
     ∧ h' !! self = Some (ObjInstance attrs')
     ∧ (∀ a, a ≠ "_data" → attrs' !! a = attrs !! a))
  ∧ (isinstance_Series h new_data = false →
     TimeSeries.data_setter self new_data h = (Raise not_a_Series, h)
     ∧ TimeSeries.data self h = (Return (PyRef l), h)
     ∧ h !! l = Some (ObjSeries s)).
Proof.
  intros Hst. split; intros Hs.
  - destruct Hst as (attrs & Hself & Hd & Hl).
    exists (<[self := ObjInstance (<["_data" := new_data]> attrs)]> h),
           attrs, (<["_data" := new_data]> attrs).
    split; [by apply data_setter_ok|]. split.
    { eapply getattr_run; [apply lookup_insert_eq|apply lookup_insert_eq]. }
    split; [intros l' Hne; by rewrite lookup_insert_ne|].
    split; [done|]. split; [apply lookup_insert_eq|].
    intros a Hne. by rewrite lookup_insert_ne.
  - split; [by apply data_setter_fail|]. split; [by eapply data_run|].
    by destruct Hst as (attrs & _ & _ & Hl).
Qed.

(** C3: for a Series S, constructing a TimeSeries with S and reading [data]
    gives back the reference to S, and S still has the same timestamp and
    value pairs in the same order. *)
Theorem construct_then_read (h : heap) (l : loc) (S : Series) (name : pyval) :
  h !! l = Some (ObjSeries S) →
  ∃ self h', TimeSeries.create (PyRef l) name h = (Return self, h')
           ∧ TimeSeries.data self h' = (Return (PyRef l), h')
           ∧ h' !! l = Some (ObjSeries S).
Proof.
  intros Hl. exists (fresh (dom h)), (created h (PyRef l) name).
  pose proof (stores_created h l S name Hl) as Hst.
  split; [apply create_ok; simpl; by rewrite Hl|].
  split; [by eapply data_run|].
  by destruct Hst as (attrs & _ & _ & Hl').
Qed.

Lemma data_setter_all_or_nothing_witness :
  (∃ h' attrs attrs',
     TimeSeries.data_setter ts0 (PyRef 2%positive) heap1 = (Return (), h')
     ∧ TimeSeries.data ts0 h' = (Return (PyRef 2%positive), h')
     ∧ (∀ l', l' ≠ ts0 → h' !! l' = heap1 !! l')
     ∧ heap1 !! ts0 = Some (ObjInstance attrs)
     ∧ h' !! ts0 = Some (ObjInstance attrs')
     ∧ (∀ a, a ≠ "_data" → attrs' !! a = attrs !! a))
  ∧ (TimeSeries.data_setter ts0 (PyRef 3%positive) heap1 = (Raise not_a_Series, heap1)
     ∧ TimeSeries.data ts0 heap1 = (Return (PyRef 1%positive), heap1)
     ∧ heap1 !! 1%positive = Some (ObjSeries series_S)).
Proof.
  pose proof (stores_created heap0 1%positive series_S (PyStr "S") eq_refl) as Hst.
  split.
  - apply (data_setter_all_or_nothing heap1 ts0 1%positive series_S
             (PyRef 2%positive) Hst).
    reflexivity.
  - apply (data_setter_all_or_nothing heap1 ts0 1%positive series_S
             (PyRef 3%positive) Hst).
    reflexivity.
Defined.

Lemma construct_then_read_witness :
  ∃ self h', TimeSeries.create (PyRef 1%positive) (PyStr "S") heap0 = (Return self, h')
           ∧ TimeSeries.data self h' = (Return (PyRef 1%positive), h')
           ∧ h' !! 1%positive = Some (ObjSeries series_S).
Proof.
  apply (construct_then_read heap0 1%positive series_S (PyStr "S")).
  reflexivity.
Defined.

(** ** [get_summary] reads and does not write *)

Lemma read_only_bind {A B} (m : Py A) (k : A → Py B) :
  read_only m → (∀ a, read_only (k a)) → read_only (m ≫= k).
Proof.
  intros Hm Hk h. unfold mbind, Py_bind.
  specialize (Hm h). destruct (m h) as [[a|e] h']; simpl in *; subst h'.
  - apply Hk.
  - done.
Qed.

Lemma read_only_ret {A} (a : A) : read_only (mret a).
Proof. by intros h. Qed.

Lemma read_only_raise {A} (e : exn) : read_only (@raise A e).
Proof. by intros h. Qed.

Lemma read_only_get_heap : read_only get_heap.
Proof. by intros h. Qed.

Create HintDb ro.
#[local] Hint Resolve read_only_ret read_only_raise read_only_get_heap : ro.

Lemma read_only_getattr (self : loc) (attr : string) : read_only (getattr self attr).
Proof.
  unfold getattr. apply read_only_bind; [auto with ro|]. intros h.
  destruct (h !! self) as [[| | |attrs]|]; auto with ro.
  destruct (attrs !! attr); auto with ro.
Qed.

Lemma read_only_call_Series {A} (method : string) (f : Series → A) (v : pyval) :
  read_only (call_Series method f v).
Proof.
  unfold call_Series. apply read_only_bind; [auto with ro|]. intros h.
  destruct v as [| | | |l]; auto with ro.
  destruct (h !! l) as [[| | |]|]; auto with ro.
Qed.

Lemma read_only_py_len (v : pyval) : read_only (py_len v).
Proof.
  unfold py_len. apply read_only_bind; [auto with ro|]. intros h.
  destruct v as [| | | |l]; auto with ro.
  destruct (h !! l) as [[| | |]|]; auto with ro.
Qed.

#[local] Hint Resolve read_only_getattr read_only_call_Series read_only_py_len : ro.

Lemma get_summary_is_read_only (self : loc) :
  read_only (TimeSeries.get_summary self).
Proof.
  unfold TimeSeries.get_summary.
  repeat (apply read_only_bind; [apply read_only_bind; auto with ro|intros ?]).
  auto with ro.
Qed.

(** C8: [get_summary] changes nothing: from every store, whether it
    returns the record or raises, the store afterwards is the store before,
    so the data and the name read afterwards are what they were. *)
Theorem get_summary_read_only (self : loc) (h : heap) :
  (TimeSeries.get_summary self h).2 = h
  ∧ TimeSeries.data self (TimeSeries.get_summary self h).2 = TimeSeries.data self h
  ∧ TimeSeries.name self (TimeSeries.get_summary self h).2 = TimeSeries.name self h.
Proof.
  pose proof (get_summary_is_read_only self) as H.
  by rewrite !H.
Qed.

(** ** The summary *)

Lemma fill_na_numeric (fill : float64) (values : list float64) :
  Forall (λ x, F64.isnan x = false) values → nanops.fill_na fill values = values.
Proof.
  induction 1 as [|x xs Hx _ IH]; [done|].
  unfold nanops.fill_na in *. simpl. by rewrite Hx, IH.
Qed.

Lemma count_numeric (values : list float64) :
  Forall (λ x, F64.isnan x = false) values → nanops.count values = length values.
Proof.
  unfold nanops.count. induction 1 as [|x xs Hx _ IH]; [done|].
  rewrite filter_cons_True; [simpl; by rewrite IH|].
  unfold F64.notna. by rewrite Hx.
Qed.

Lemma summary_of_run (h : heap) (l : loc) (s : Series) (name : pyval) :
  h !! l = Some (ObjSeries s) →
  summary_of (PyRef l) name h
  = (Return (summarize s), created h (PyRef l) name).
Proof.
  intros Hl. unfold summary_of.
  erewrite bind_return; [|apply create_ok; simpl; by rewrite Hl].
  eapply get_summary_run, stores_created, Hl.
Qed.

(** C4, as the code has it: for a TimeSeries whose Series is non-empty and
    holds numbers only, [get_summary] returns a record whose length is the
    number of elements and whose minimum is at most its maximum; every
    value lies between the two.  The mean is computed in binary64, and
    rounding can take it outside the interval from the minimum to the
    maximum, so nothing is stated about it. *)
Theorem summary_length_min_max (h : heap) (self l : loc) (s : Series) :
  stores h self l s → s ≠ [] → numeric s →
  ∃ r, TimeSeries.get_summary self h = (Return r, h)
     ∧ s_length r = length s
     ∧ s_min r ≤f s_max r
     ∧ Forall (λ x, s_min r ≤f x ∧ x ≤f s_max r) (pd.values s).
Proof.
  intros Hst Hne Hnum. exists (summarize s).
  split; [by eapply get_summary_run|]. simpl.
  assert (Forall (λ x, pd.min s ≤f x ∧ x ≤f pd.max s) (pd.values s)) as Hb.
  { apply Forall_forall. intros x Hx.
    assert (F64.isnan x = false) by (by eapply Forall_forall in Hnum).
    split; [by apply nanmin_le | by apply nanmax_ge]. }
  split; [done|]. split; [|done].
  destruct s as [|[t x] s]; [done|].
  apply Forall_cons in Hb as [[Hlo Hhi] _]. by eapply le_trans.
Qed.

Lemma summary_length_min_max_witness :
  ∃ r, TimeSeries.get_summary ts0 heap1 = (Return r, heap1)
     ∧ s_length r = 3%nat
     ∧ s_min r ≤f s_max r
     ∧ Forall (λ x, s_min r ≤f x ∧ x ≤f s_max r) [f1_0; f3_0; f2_0].
Proof.
  apply (summary_length_min_max heap1 ts0 1%positive series_S).
  - exact (stores_created heap0 1%positive series_S (PyStr "S") eq_refl).
  - discriminate.
  - repeat constructor.
Defined.

(** C4, as stated, fails on the mean.  Three observations of 0.1 have the
    mean 0.10000000000000002, above their maximum 0.1; three observations
    of 0.7 have the mean 0.6999999999999998, below their minimum 0.7. *)
Lemma mean_outside_min_max :
  (∃ r h', summary_of (PyRef 1%positive) (PyStr "S")
             {[1%positive := ObjSeries three_tenths]} = (Return r, h')
         ∧ s_length r = 3%nat
         ∧ s_max r = f0_1
         ∧ F64.ltb (s_max r) (s_mean r) = true
         ∧ F64.leb (s_mean r) (s_max r) = false)
  ∧ (∃ r h', summary_of (PyRef 1%positive) (PyStr "S")
               {[1%positive := ObjSeries three_sevenths]} = (Return r, h')
           ∧ s_length r = 3%nat
           ∧ s_min r = f0_7
           ∧ F64.ltb (s_mean r) (s_min r) = true
           ∧ F64.leb (s_min r) (s_mean r) = false).
Proof.
  split.
  - eexists _, _. split.
    + apply (summary_of_run _ 1%positive three_tenths). reflexivity.
    + by vm_compute.
  - eexists _, _. split.
    + apply (summary_of_run _ 1%positive three_sevenths). reflexivity.
    + by vm_compute.
Qed.

(** C5: the Series 2023-01-01 ↦ 1.0, 2023-01-02 ↦ 3.0, 2023-01-03 ↦ 2.0
    named S has the summary mean 2.0, median 2.0, std 1.0, min 1.0,
    max 3.0, length 3.  The standard deviation is the root of the squared
    deviations 1, 1, 0 summed and divided by 3 - 1; divided by 3 they would
    not give 1.0. *)
Theorem scenario_summary (h : heap) (l : loc) :
  h !! l = Some (ObjSeries series_S) →
  ∃ h', summary_of (PyRef l) (PyStr "S") h
        = (Return (Summary f2_0 f2_0 f1_0 f1_0 f3_0 3), h')
      ∧ pd.std series_S
        = F64.sqrt (F64.div (nanops.np_sum [f1_0; f1_0; F64.zero])
                            (F64.sub (F64.of_nat 3) (F64.of_nat 1)))
      ∧ F64.sqrt (F64.div (nanops.np_sum [f1_0; f1_0; F64.zero]) (F64.of_nat 3))
        ≠ f1_0.
Proof.
  intros Hl. exists (created h (PyRef l) (PyStr "S")).
  split; [by rewrite (summary_of_run h l series_S)|].
  split; [by vm_compute|]. by vm_compute.
Qed.

Lemma scenario_summary_witness :
  ∃ h', summary_of (PyRef 1%positive) (PyStr "S") heap0
        = (Return (Summary f2_0 f2_0 f1_0 f1_0 f3_0 3), h')
      ∧ pd.std series_S
        = F64.sqrt (F64.div (nanops.np_sum [f1_0; f1_0; F64.zero])
                            (F64.sub (F64.of_nat 3) (F64.of_nat 1)))
      ∧ F64.sqrt (F64.div (nanops.np_sum [f1_0; f1_0; F64.zero]) (F64.of_nat 3))
        ≠ f1_0.
Proof. apply (scenario_summary heap0 1%positive). reflexivity. Defined.

(** C9: an empty Series is accepted at construction, and [get_summary] on
    it returns normally: the length is 0 and the mean, median, standard
    deviation, minimum and maximum are NaN. *)
Theorem empty_series_summary (h : heap) (l : loc) (name : pyval) :
  h !! l = Some (ObjSeries []) →
  ∃ self h', TimeSeries.create (PyRef l) name h = (Return self, h')
           ∧ TimeSeries.get_summary self h'
             = (Return (Summary F64.nan F64.nan F64.nan F64.nan F64.nan 0), h').
Proof.
  intros Hl. exists (fresh (dom h)), (created h (PyRef l) name).
  split; [apply create_ok; simpl; by rewrite Hl|].
  by rewrite (get_summary_run _ _ l []) by by apply stores_created.
Qed.

Lemma empty_series_summary_witness :
  ∃ self h', TimeSeries.create (PyRef 2%positive) TimeSeries.default_name heap0
             = (Return self, h')
           ∧ TimeSeries.get_summary self h'
             = (Return (Summary F64.nan F64.nan F64.nan F64.nan F64.nan 0), h').
Proof.
  apply (empty_series_summary heap0 2%positive TimeSeries.default_name).
  reflexivity.
Defined.

(** ** Insertion of a point *)

Section Setitem.

Variables (s : Series) (key : Timestamp) (value : float64).

Lemma has_label_elem : pd.has_label key s = true ↔ ∃ x, (key, x) ∈ s.
Proof.
  unfold pd.has_label. rewrite existsb_exists. split.
  - intros ([t x] & Hin%list_elem_of_In & Heq%Z.eqb_eq). simpl in Heq. subst t.
    by exists x.
  - intros (x & Hin). exists (key, x). split; [by apply list_elem_of_In|].
    simpl. apply Z.eqb_refl.
Qed.

Lemma setitem_present :
  pd.has_label key s = true →
  pd.setitem s key value = map (λ p, if p.1 =? key then (p.1, value) else p) s.
Proof. intros H. unfold pd.setitem. by rewrite H. Qed.

Lemma setitem_absent :
  pd.has_label key s = false → pd.setitem s key value = s ++ [(key, value)].
Proof. intros H. unfold pd.setitem. by rewrite H. Qed.


(** The new value is in the Series under its label. *)
Lemma setitem_elem : (key, value) ∈ pd.setitem s key value.
Proof.
  destruct (pd.has_label key s) eqn:E.
  - rewrite setitem_present by done.
    apply has_label_elem in E as (x & Hin).
    apply list_elem_of_fmap. exists (key, x). simpl. by rewrite Z.eqb_refl.
  - rewrite setitem_absent by done. apply elem_of_app. right. by apply list_elem_of_singleton.
Qed.





End Setitem.

(** *** Sums *)

Lemma pairwise_sum_short (fuel : nat) (a : list float64) :
  (length a < 8)%nat →
  nanops.pairwise_sum fuel a = fold_left F64.add a F64.zero.
Proof.
  intros H%Nat.ltb_lt. destruct fuel; simpl; by rewrite H.
Qed.

Lemma pairwise_sum_block (fuel : nat) (a : list float64) :
  (8 ≤ length a ≤ 128)%nat →
  nanops.pairwise_sum fuel a = nanops.sum_block a.
Proof.
  intros [H8 H128].
  assert ((length a <? 8)%nat = false) as E1 by (apply Nat.ltb_ge; lia).
  assert ((length a <=? 128)%nat = true) as E2 by (apply Nat.leb_le; lia).
  destruct fuel; simpl; by rewrite E1, E2.
Qed.

(** The accumulators stay eight while full blocks are added, so [add_tree]
    always finds eight of them. *)
Lemma add_blocks_length (blocks : nat) : ∀ r a : list float64,
  length r = 8%nat → (8 * blocks ≤ length a)%nat →
  length (nanops.add_blocks blocks r a).1 = 8%nat
  ∧ length (nanops.add_blocks blocks r a).2 = (length a - 8 * blocks)%nat.
Proof.
  induction blocks as [|k IH]; intros r a Hr Ha; simpl.
  - split; [done|lia].
  - destruct (IH (zip_with F64.add r (take 8 a)) (drop 8 a)) as [H1 H2].
    + rewrite length_zip_with, length_take. lia.
    + rewrite length_drop. lia.
    + split; [done|]. rewrite H2, length_drop. lia.
Qed.

Lemma sum_block_accumulators (a : list float64) :
  (8 ≤ length a)%nat →
  length (nanops.add_blocks (length a / 8 - 1) (take 8 a) (drop 8 a)).1 = 8%nat.
Proof.
  intros Ha. apply add_blocks_length.
  - rewrite length_take. lia.
  - rewrite length_drop.
    pose proof (Nat.Div0.mul_div_le (length a) 8). lia.
Qed.

(** Where numpy cuts an array of more than 128 elements, both parts are
    shorter than the array. *)
Lemma cut_bounds (n : nat) :
  (128 < n)%nat → (0 < n / 2 - (n / 2) mod 8 < n)%nat.
Proof.
  intros Hn.
  pose proof (Nat.mod_upper_bound (n / 2) 8 ltac:(lia)).
  pose proof (Nat.div_lt n 2 ltac:(lia) ltac:(lia)).
  assert (64 ≤ n / 2)%nat by (apply Nat.div_le_lower_bound; lia).
  lia.
Qed.

(** Any fuel from the length of the array on gives the same sum: the
    recursion never runs out. *)
Lemma pairwise_sum_fuel (f1 : nat) : ∀ (f2 : nat) (a : list float64),
  (length a ≤ f1)%nat → (length a ≤ f2)%nat →
  nanops.pairwise_sum f1 a = nanops.pairwise_sum f2 a.
Proof.
  induction f1 as [|f1 IH]; intros f2 a H1 H2.
  - rewrite !pairwise_sum_short by lia. done.
  - destruct (decide (length a < 8)%nat);
      [by rewrite !pairwise_sum_short by done|].
    destruct (decide (length a ≤ 128)%nat);
      [by rewrite !pairwise_sum_block by lia|].
    destruct f2 as [|f2]; [lia|].
    assert ((length a <? 8)%nat = false) as E1 by (apply Nat.ltb_ge; lia).
    assert ((length a <=? 128)%nat = false) as E2 by (apply Nat.leb_gt; lia).
    cbn [nanops.pairwise_sum]. rewrite E1, E2.
    pose proof (cut_bounds (length a) ltac:(lia)) as Hcut.
    f_equal; apply IH; rewrite ?length_take, ?length_drop; lia.
Qed.



(** *** A missing value at the end *)












(** ** The getter hands out the stored object *)

Lemma stores_data_setter (h : heap) (self l : loc) (S : Series)
    (attrs : gmap string pyval) :
  h !! self = Some (ObjInstance attrs) →
  h !! l = Some (ObjSeries S) →
  stores (<[self := ObjInstance (<["_data" := PyRef l]> attrs)]> h) self l S.
Proof.
  intros Hself Hl. exists (<["_data" := PyRef l]> attrs).
  split; [apply lookup_insert_eq|]. split; [apply lookup_insert_eq|].
  rewrite lookup_insert_ne; [done|]. intros ->. congruence.
Qed.

Lemma write_through_data_run (h : heap) (self l : loc) (S : Series)
    (t : Timestamp) (v : float64) :
  stores h self l S →
  write_through_data self t v h
  = (Return (summarize (pd.setitem S t v)),
     <[l := ObjSeries (pd.setitem S t v)]> h).
Proof.
  intros Hst. unfold write_through_data.
  erewrite bind_return; [|by eapply data_run].
  destruct Hst as (attrs & Hself & Hd & Hl).
  erewrite bind_return.
  2:{ unfold py_setitem, mbind, Py_bind, get_heap. by rewrite Hl. }
  eapply get_summary_run, stores_update. by exists attrs.
Qed.

(** C10: the getter returns the reference that was stored, not a copy.
    For a Series S at address l, after [TimeSeries(S, name)], and after
    [ts.data = S] on an existing instance, [data] returns the reference l
    itself; whatever content the object at l is given from outside is what
    [get_summary] reports next, and a point written through the returned
    reference shows in the summary. *)
Theorem data_returns_stored_object (h : heap) (l : loc) (S : Series) :
  h !! l = Some (ObjSeries S) →
  (∀ name, ∃ self h',
     TimeSeries.create (PyRef l) name h = (Return self, h')
     ∧ TimeSeries.data self h' = (Return (PyRef l), h')
     ∧ (∀ S', TimeSeries.get_summary self (<[l := ObjSeries S']> h')
              = (Return (summarize S'), <[l := ObjSeries S']> h'))
     ∧ (∀ t v, write_through_data self t v h'
               = (Return (summarize (pd.setitem S t v)),
                  <[l := ObjSeries (pd.setitem S t v)]> h')))
  ∧ (∀ self l0 S0, stores h self l0 S0 → ∃ h',
     TimeSeries.data_setter self (PyRef l) h = (Return (), h')
     ∧ TimeSeries.data self h' = (Return (PyRef l), h')
     ∧ (∀ S', TimeSeries.get_summary self (<[l := ObjSeries S']> h')
              = (Return (summarize S'), <[l := ObjSeries S']> h'))
     ∧ (∀ t v, write_through_data self t v h'
               = (Return (summarize (pd.setitem S t v)),
                  <[l := ObjSeries (pd.setitem S t v)]> h'))).
Proof.
  intros Hl. split.
  - intros name. exists (fresh (dom h)), (created h (PyRef l) name).
    pose proof (stores_created h l S name Hl) as Hst.
    split; [apply create_ok; simpl; by rewrite Hl|].
    split; [by eapply data_run|]. split.
    + intros S'. by eapply get_summary_run, stores_update.
    + intros t v. by apply write_through_data_run.
  - intros self l0 S0 (attrs & Hself & _ & _).
    exists (<[self := ObjInstance (<["_data" := PyRef l]> attrs)]> h).
    pose proof (stores_data_setter h self l S attrs Hself Hl) as Hst.
    split; [apply data_setter_ok; [done|simpl; by rewrite Hl]|].
    split; [by eapply data_run|]. split.
    + intros S'. by eapply get_summary_run, stores_update.
    + intros t v. by apply write_through_data_run.
Qed.

Lemma data_returns_stored_object_witness :
  (∃ self h',
     TimeSeries.create (PyRef 1%positive) (PyStr "S") heap0 = (Return self, h')
     ∧ TimeSeries.data self h' = (Return (PyRef 1%positive), h')
     ∧ write_through_data self d2023_01_04 f5_0 h'
       = (Return (summarize (pd.setitem series_S d2023_01_04 f5_0)),
          <[1%positive := ObjSeries (pd.setitem series_S d2023_01_04 f5_0)]> h'))
  ∧ (∃ h',
     TimeSeries.data_setter ts0 (PyRef 2%positive) heap1 = (Return (), h')
     ∧ TimeSeries.data ts0 h' = (Return (PyRef 2%positive), h')
     ∧ write_through_data ts0 d2023_01_04 f5_0 h'
       = (Return (summarize [(d2023_01_04, f5_0)]),
          <[2%positive := ObjSeries [(d2023_01_04, f5_0)]]> h')).
Proof.
  split.
  - destruct (proj1 (data_returns_stored_object heap0 1%positive series_S eq_refl)
                (PyStr "S")) as (self & h' & Hc & Hd & _ & Hw).
    exists self, h'. split; [done|]. split; [done|]. apply Hw.
  - destruct (proj2 (data_returns_stored_object heap1 2%positive [] eq_refl)
                ts0 1%positive series_S
                (stores_created heap0 1%positive series_S (PyStr "S") eq_refl))
      as (h' & Hs & Hd & _ & Hw).
    exists h'. split; [done|]. split; [done|]. apply Hw.
Defined.

(** ** What every reachable state stores *)

Lemma run_call_stores (self : loc) (c : call) (h h' : heap) (r : outcome unit) :
  (∃ l s, stores h self l s) →
  run_call self c h = (r, h') →
  ∃ l s, stores h' self l s.
Proof.
  intros (l & s & Hst) Hrun.
  assert (∀ A (m : Py A), read_only m → (m;; mret ()) h = (r, h') → h' = h)
    as Hro.
  { intros A m Hm Heq.
    assert (read_only (m;; mret ())) as H
      by (apply read_only_bind; [done|intros; apply read_only_ret]).
    specialize (H h). rewrite Heq in H. done. }
  destruct c as [|new_data| |new_name| |t v]; simpl in Hrun.
  - apply Hro in Hrun as ->; [by eauto|apply read_only_getattr].
  - destruct (isinstance_Series h new_data) eqn:Hs.
    + pose proof Hs as (l' & s' & -> & Hl')%isinstance_Series_ref.
      destruct Hst as (attrs & Hself & _ & _).
      rewrite (data_setter_ok h self attrs) in Hrun by done.
      injection Hrun as _ <-. exists l', s'. by apply stores_data_setter.
    + rewrite data_setter_fail in Hrun by done. injection Hrun as _ <-. eauto.
  - apply Hro in Hrun as ->; [by eauto|apply read_only_getattr].
  - destruct Hst as (attrs & Hself & Hd & Hl).
    unfold TimeSeries.name_setter in Hrun.
    rewrite (setattr_run h self attrs) in Hrun by done.
    injection Hrun as _ <-. exists l, s, (<["_name" := new_name]> attrs).
    split; [apply lookup_insert_eq|]. split; [by rewrite lookup_insert_ne|].
    rewrite lookup_insert_ne; [done|]. intros ->. congruence.
  - apply Hro in Hrun as ->; [by eauto|].
    intros h0. apply (get_summary_is_read_only self h0).
  - rewrite (add_value_run h self l s) in Hrun by done.
    injection Hrun as _ <-. exists l, (pd.setitem s t v).
    by eapply stores_update.
Qed.

Lemma reachable_stores (self : loc) (h : heap) :
  reachable self h → ∃ l s, stores h self l s.
Proof.
  induction 1 as [h0 data name h Hc|h c r h' _ IH Hrun|h h' _ IH [Hself Hser]].
  - destruct (isinstance_Series h0 data) eqn:Hs.
    + pose proof Hs as (l & s & -> & Hl)%isinstance_Series_ref.
      rewrite create_ok in Hc by done. injection Hc as <- <-.
      exists l, s. by apply stores_created.
    + by rewrite create_fail in Hc.
  - by eapply run_call_stores.
  - destruct IH as (l & s & attrs & Hs & Hd & Hl).
    destruct (Hser l s Hl) as (s' & Hl').
    exists l, s', attrs. by rewrite Hself.
Qed.

(** C7, as the code has it: in every reachable state the stored data is an
    instance of the one recognised type, a pandas Series: [data] returns a
    reference for which the check of the constructor and of the setter
    passes.  Construction and whole-sequence reassignment make the check;
    single-point insertion makes none and keeps the type because it writes
    into the Series in place.  The labels of the stored Series are in
    storage order; nothing is said about their being ascending. *)
Theorem stored_data_is_a_Series (self : loc) (h : heap) :
  reachable self h →
  ∃ d, TimeSeries.data self h = (Return d, h)
     ∧ isinstance_Series h d = true
     ∧ TimeSeries._validate_input_data self d h = (Return (), h).
Proof.
  intros (l & s & Hst)%reachable_stores. exists (PyRef l).
  split; [by eapply data_run|].
  destruct Hst as (attrs & _ & _ & Hl).
  assert (isinstance_Series h (PyRef l) = true) as Hs by (simpl; by rewrite Hl).
  split; [done|by apply validate_ok].
Qed.

Lemma stored_data_is_a_Series_witness :
  ∃ d, TimeSeries.data ts0 heap1 = (Return d, heap1)
     ∧ isinstance_Series heap1 d = true
     ∧ TimeSeries._validate_input_data ts0 d heap1 = (Return (), heap1).
Proof.
  apply (stored_data_is_a_Series ts0 heap1).
  apply (reach_create ts0 heap0 (PyRef 1%positive) (PyStr "S")).
  reflexivity.
Defined.

(** C7, as stated, fails: the stored data need not be an ordered mapping,
    and insertion validates nothing.  The scenario's three points are in
    ascending order; after [add_value(2022-12-31, 5.0)], which returns
    normally, the stored Series ends with the earlier date. *)
Lemma insertion_breaks_order :
  ∃ h, TimeSeries.add_value ts0 d2022_12_31 f5_0 heap1 = (Return (), h)
     ∧ reachable ts0 heap1
     ∧ reachable ts0 h
     ∧ stores heap1 ts0 1%positive series_S
     ∧ ascending (pd.index series_S) = true
     ∧ stores h ts0 1%positive (series_S ++ [(d2022_12_31, f5_0)])
     ∧ ascending (pd.index (series_S ++ [(d2022_12_31, f5_0)])) = false.
Proof.
  pose proof (stores_created heap0 1%positive series_S (PyStr "S") eq_refl) as Hst.
  assert (reachable ts0 heap1) as Hr.
  { by apply (reach_create ts0 heap0 (PyRef 1%positive) (PyStr "S")). }
  pose proof (add_value_run heap1 ts0 1%positive series_S d2022_12_31 f5_0 Hst)
    as Hadd.
  eexists. split; [exact Hadd|]. split; [done|].
  split; [by apply (reach_call ts0 heap1 (CallAddValue d2022_12_31 f5_0)
                      (Return ()) _ Hr)|].
  split; [done|]. split; [done|].
  split; [|done].
  apply (stores_update heap1 ts0 1%positive series_S
           (series_S ++ [(d2022_12_31, f5_0)]) Hst).
Qed.

(** Insertion makes no check of the container: where [_data] refers to a
    dictionary, [add_value] returns normally and a dictionary stays stored,
    while the setter turns the same dictionary down. *)
Remark add_value_makes_no_check :
  (∃ h', TimeSeries.add_value 2%positive d2023_01_04 f5_0 heap_dict = (Return (), h')
       ∧ h' !! 1%positive = Some (ObjDict [(PyTimestamp d2023_01_04, PyFloat f5_0)])
       ∧ TimeSeries.data 2%positive h' = (Return (PyRef 1%positive), h'))
  ∧ TimeSeries.data_setter 2%positive (PyRef 1%positive) heap_dict
    = (Raise not_a_Series, heap_dict).
Proof. split; [eexists; split; [reflexivity|done]|done]. Qed.

(** * Further properties of the class *)

(** ** What a call does *)

Lemma initialised_stores (h : heap) (self l : loc) (s : Series) (nm : pyval) :
  initialised h self l s nm → stores h self l s.
Proof. intros (attrs & ? & ? & ? & ?). by exists attrs. Qed.

Lemma stores_agree (h : heap) (self l l' : loc) (s s' : Series) :
  stores h self l s → stores h self l' s' → l' = l ∧ s' = s.
Proof.
  intros (a & Hs & Hd & Hl) (a' & Hs' & Hd' & Hl').
  assert (a' = a) as -> by congruence.
  assert (l' = l) as -> by congruence.
  split; [done|congruence].
Qed.

Section Calls.

Variables (h : heap) (self l : loc) (s : Series) (nm : pyval).
Variable attrs : gmap string pyval.
Hypothesis Hself : h !! self = Some (ObjInstance attrs).
Hypothesis Hdata : attrs !! "_data" = Some (PyRef l).
Hypothesis Hname : attrs !! "_name" = Some nm.
Hypothesis Hseries : h !! l = Some (ObjSeries s).

Lemma Calls_stores : stores h self l s.
Proof. by exists attrs. Qed.

(** Every call ends as [effect] says. *)
Lemma run_call_effect (c : call) :
  effect h self l s attrs c (run_call self c h).1 (run_call self c h).2.
Proof.
  pose proof Calls_stores as Hst.
  destruct c as [|new_data| |new_name| |t v]; simpl.
  - rewrite (bind_return _ _ h h (PyRef l)) by by eapply data_run. constructor.
  - destruct (isinstance_Series h new_data) eqn:Hs.
    + pose proof Hs as (l' & s' & -> & Hl')%isinstance_Series_ref.
      rewrite (data_setter_ok h self attrs) by done. by econstructor.
    + rewrite data_setter_fail by done. by constructor.
  - rewrite (bind_return _ _ h h nm) by by eapply name_run. constructor.
  - unfold TimeSeries.name_setter. rewrite (setattr_run h self attrs) by done.
    constructor.
  - rewrite (bind_return _ _ h h (summarize s)) by by eapply get_summary_run.
    constructor.
  - rewrite (add_value_run h self l s) by done. constructor.
Qed.

(** After a call the instance is initialised still. *)
Lemma effect_initialised (c : call) (r : outcome unit) (h' : heap) :
  effect h self l s attrs c r h' → ∃ l' s' nm', initialised h' self l' s' nm'.
Proof.
  assert (self ≠ l) as Hne by (intros ->; congruence).
  inversion 1; subst.
  1-4: exists l, s, nm, attrs; done.
  - exists l', s', nm, (<["_data" := PyRef l']> attrs).
    split; [apply lookup_insert_eq|]. split; [apply lookup_insert_eq|].
    split; [by rewrite lookup_insert_ne|].
    rewrite lookup_insert_ne; [done|]. intros ->. congruence.
  - exists l, s, new_name, (<["_name" := new_name]> attrs).
    split; [apply lookup_insert_eq|]. split; [by rewrite lookup_insert_ne|].
    split; [apply lookup_insert_eq|]. by rewrite lookup_insert_ne.
  - exists l, (pd.setitem s timestamp value), nm, attrs.
    split; [by rewrite lookup_insert_ne|]. split; [done|]. split; [done|].
    apply lookup_insert_eq.
Qed.

End Calls.

Lemma reachable_initialised (self : loc) (h : heap) :
  reachable self h → ∃ l s nm, initialised h self l s nm.
Proof.
  induction 1 as [h0 data name h Hc|h c r h' _ IH Hrun|h h' _ IH [Hself Hser]].
  - destruct (isinstance_Series h0 data) eqn:Hs.
    + pose proof Hs as (l & s & -> & Hl)%isinstance_Series_ref.
      rewrite create_ok in Hc by done. injection Hc as <- <-.
      exists l, s, name, (<["_name" := name]> (<["_data" := PyRef l]> ∅)).
      unfold created. split; [apply lookup_insert_eq|]. split; [done|].
      split; [apply lookup_insert_eq|].
      rewrite lookup_insert_ne; [done|].
      intros E. rewrite <- E, fresh_None in Hl. done.
    + by rewrite create_fail in Hc.
  - destruct IH as (l & s & nm & attrs & Hs & Hd & Hn & Hl).
    pose proof (run_call_effect h self l s nm attrs Hs Hd Hn Hl c) as He.
    rewrite Hrun in He. by eapply effect_initialised.
  - destruct IH as (l & s & nm & attrs & Hs & Hd & Hn & Hl).
    destruct (Hser l s Hl) as (s' & Hl').
    exists l, s', nm, attrs. by rewrite Hself.
Qed.

(** ** The name *)

(** X1: the setter of [name] checks nothing: on an instance it accepts any
    value and returns normally; [name] then reads that value back, [data]
    returns the reference it returned before, the summary is the one of the
    stored Series, and no object other than the instance has changed. *)
Theorem name_setter_then_name (h : heap) (self l : loc) (s : Series) (v : pyval) :
  stores h self l s →
  ∃ h', TimeSeries.name_setter self v h = (Return (), h')
      ∧ TimeSeries.name self h' = (Return v, h')
      ∧ TimeSeries.data self h' = (Return (PyRef l), h')
      ∧ TimeSeries.get_summary self h' = (Return (summarize s), h')
      ∧ (∀ l', l' ≠ self → h' !! l' = h !! l').
Proof.
  intros Hst. pose proof (stores_ne _ _ _ _ Hst) as Hne.
  destruct Hst as (attrs & Hself & Hd & Hl).
  exists (<[self := ObjInstance (<["_name" := v]> attrs)]> h).
  assert (stores (<[self := ObjInstance (<["_name" := v]> attrs)]> h) self l s)
    as Hst'.
  { exists (<["_name" := v]> attrs). split; [apply lookup_insert_eq|].
    split; [by rewrite lookup_insert_ne|]. by rewrite lookup_insert_ne. }
  split; [by apply setattr_run|].
  split; [eapply name_run; [apply lookup_insert_eq|apply lookup_insert_eq]|].
  split; [by eapply data_run|]. split; [by eapply get_summary_run|].
  intros l' Hl'. by rewrite lookup_insert_ne.
Qed.

Lemma name_setter_then_name_witness :
  ∃ h', TimeSeries.name_setter ts0 PyNone heap1 = (Return (), h')
      ∧ TimeSeries.name ts0 h' = (Return PyNone, h')
      ∧ TimeSeries.data ts0 h' = (Return (PyRef 1%positive), h')
      ∧ TimeSeries.get_summary ts0 h' = (Return (summarize series_S), h')
      ∧ (∀ l', l' ≠ ts0 → h' !! l' = heap1 !! l').
Proof.
  apply (name_setter_then_name heap1 ts0 1%positive series_S PyNone).
  exact (stores_created heap0 1%positive series_S (PyStr "S") eq_refl).
Defined.

(** X2: the name is always there: in every reachable state [name] returns
    a value and raises nothing. *)
Theorem name_always_present (self : loc) (h : heap) :
  reachable self h → ∃ nm, TimeSeries.name self h = (Return nm, h).
Proof.
  intros (l & s & nm & attrs & Hs & _ & Hn & _)%reachable_initialised.
  exists nm. by eapply name_run.
Qed.

Lemma name_always_present_witness :
  ∃ nm, TimeSeries.name ts0 heap1 = (Return nm, heap1).
Proof.
  apply (name_always_present ts0 heap1).
  apply (reach_create ts0 heap0 (PyRef 1%positive) (PyStr "S")).
  reflexivity.
Defined.

(** ** The text forms *)

Lemma py_len_run (h : heap) (l : loc) (s : Series) :
  h !! l = Some (ObjSeries s) → py_len (PyRef l) h = (Return (pd.len s), h).
Proof. intros Hl. unfold py_len, mbind, Py_bind, get_heap. by rewrite Hl. Qed.

(** X3: in a reachable state whose name is a string N, [__repr__] and
    [__str__] return normally and leave the store as it is; the texts are
    [TimeSeries(name='N', length=K)] and [TimeSeries: N, Length: K] with K
    the current number of elements in decimal.  (For a name that is no
    string the texts go through that value's own [__str__], which can
    raise.) *)
Theorem text_forms (str_of : pyval → Py string) (self : loc) (h : heap)
    (N : string) :
  reachable self h →
  TimeSeries.name self h = (Return (PyStr N), h) →
  ∃ l s,
    stores h self l s
    ∧ TimeSeries.__repr__ str_of self h
      = (Return ("TimeSeries(name='" +:+ N
                 +:+ "', length=" +:+ pretty (length s) +:+ ")"), h)
    ∧ TimeSeries.__str__ str_of self h
      = (Return ("TimeSeries: " +:+ N
                 +:+ ", Length: " +:+ pretty (length s)), h).
Proof.
  intros (l & s & nm & attrs & Hs & Hd & Hn & Hl)%reachable_initialised Hname.
  rewrite (name_run h self attrs nm Hs Hn) in Hname. injection Hname as ->.
  exists l, s. split; [by exists attrs|].
  assert ((getattr self "_name" ≫= py_format str_of) h = (Return N, h)) as Hfmt.
  { erewrite bind_return; [|by eapply getattr_run]. done. }
  assert ((getattr self "_data" ≫= py_len) h = (Return (pd.len s), h)) as Hlen.
  { erewrite bind_return; [|by eapply getattr_run]. by apply py_len_run. }
  unfold TimeSeries.__repr__, TimeSeries.__str__.
  by rewrite !(bind_return _ _ _ _ _ Hfmt), !(bind_return _ _ _ _ _ Hlen).
Qed.

Lemma text_forms_witness :
  ∃ l s,
    stores heap1 ts0 l s
    ∧ TimeSeries.__repr__ str_example ts0 heap1
      = (Return ("TimeSeries(name='" +:+ "S"
                 +:+ "', length=" +:+ pretty (length s) +:+ ")"), heap1)
    ∧ TimeSeries.__str__ str_example ts0 heap1
      = (Return ("TimeSeries: " +:+ "S"
                 +:+ ", Length: " +:+ pretty (length s)), heap1).
Proof.
  apply (text_forms str_example ts0 heap1 "S").
  - apply (reach_create ts0 heap0 (PyRef 1%positive) (PyStr "S")). reflexivity.
  - reflexivity.
Defined.

(** ** Frames *)

(** X5: a call touches the instance and its Series and nothing else.  On a
    reachable instance that stores the Series at l: after any call but the
    setter of [data], [data] still returns the reference l; after any call
    but [add_value], the Series at l has the content it had; and every
    object other than the instance and that Series is unchanged. *)
Theorem calls_frame (self l : loc) (s : Series) (h h' : heap) (c : call)
    (r : outcome unit) :
  reachable self h →
  stores h self l s →
  run_call self c h = (r, h') →
  ((∀ v, c ≠ CallDataSetter v) → TimeSeries.data self h' = (Return (PyRef l), h'))
  ∧ ((∀ t v, c ≠ CallAddValue t v) → h' !! l = Some (ObjSeries s))
  ∧ (∀ l', l' ≠ self → l' ≠ l → h' !! l' = h !! l').
Proof.
  intros (l0 & s0 & nm & attrs & Hs & Hd & Hn & Hl)%reachable_initialised Hst Hrun.
  destruct (stores_agree h self l0 l s0 s) as [<- <-]; [by exists attrs|done|].
  pose proof (stores_ne _ _ _ _ Hst) as Hne.
  pose proof (run_call_effect h self l s nm attrs Hs Hd Hn Hl c) as He.
  rewrite Hrun in He. simpl in He.
  inversion He; subst; (split; [intros Hc|split; [intros Hc|intros l1 H1 H2]]);
    try done;
    try (by eapply data_run);
    try (by rewrite lookup_insert_ne);
    try (by edestruct Hc).
  - eapply getattr_run; [apply lookup_insert_eq|by rewrite lookup_insert_ne].
  - eapply data_run, stores_update, Hst.
Qed.

Lemma calls_frame_witness :
  ((∀ v, CallAddValue d2023_01_04 f5_0 ≠ CallDataSetter v) →
   TimeSeries.data ts0 (<[1%positive := ObjSeries (pd.setitem series_S d2023_01_04 f5_0)]> heap1)
   = (Return (PyRef 1%positive),
      <[1%positive := ObjSeries (pd.setitem series_S d2023_01_04 f5_0)]> heap1))
  ∧ ((∀ t v, CallAddValue d2023_01_04 f5_0 ≠ CallAddValue t v) →
     (<[1%positive := ObjSeries (pd.setitem series_S d2023_01_04 f5_0)]> heap1)
       !! 1%positive = Some (ObjSeries series_S))
  ∧ (∀ l', l' ≠ ts0 → l' ≠ 1%positive →
     (<[1%positive := ObjSeries (pd.setitem series_S d2023_01_04 f5_0)]> heap1) !! l'
     = heap1 !! l').
Proof.
  apply (calls_frame ts0 1%positive series_S heap1 _
           (CallAddValue d2023_01_04 f5_0) (Return ())).
  - apply (reach_create ts0 heap0 (PyRef 1%positive) (PyStr "S")). reflexivity.
  - exact (stores_created heap0 1%positive series_S (PyStr "S") eq_refl).
  - reflexivity.
Defined.

(** ** More on the insertion of a point *)

Lemma has_label_index (s : Series) (t : Timestamp) :
  pd.has_label t s = true ↔ t ∈ pd.index s.
Proof.
  rewrite has_label_elem. unfold pd.index. rewrite list_elem_of_fmap. split.
  - intros (x & Hin). by exists (t, x).
  - intros ([t' x] & -> & Hin). by exists x.
Qed.

Lemma has_label_false_index (s : Series) (t : Timestamp) :
  pd.has_label t s = false ↔ t ∉ pd.index s.
Proof.
  rewrite <- has_label_index. by destruct (pd.has_label t s).
Qed.

Lemma setitem_index (s : Series) (t : Timestamp) (v : float64) :
  pd.index (pd.setitem s t v)
  = if pd.has_label t s then pd.index s else pd.index s ++ [t].
Proof.
  destruct (pd.has_label t s) eqn:E.
  - rewrite setitem_present by done. unfold pd.index.
    rewrite <- list_fmap_compose. apply list_fmap_ext.
    intros _ [t' x] _. simpl. by destruct (t' =? t).
  - rewrite setitem_absent by done. unfold pd.index. by rewrite fmap_app.
Qed.

Lemma setitem_unlabelled (s : Series) (t : Timestamp) (v : float64) :
  pd.has_label t s = false →
  map (λ p : Timestamp * float64, if p.1 =? t then (p.1, v) else p) s = s.
Proof.
  intros H. rewrite <- (list_fmap_id s) at 2. apply list_fmap_ext.
  intros _ [t' x] Hin%list_elem_of_lookup_2. simpl.
  destruct (t' =? t) eqn:Et; [|done].
  apply Z.eqb_eq in Et as ->.
  assert (pd.has_label t s = true) by (apply has_label_elem; eauto).
  congruence.
Qed.

Lemma setitem_setitem (s : Series) (t : Timestamp) (v1 v2 : float64) :
  pd.setitem (pd.setitem s t v1) t v2 = pd.setitem s t v2.
Proof.
  assert (pd.has_label t (pd.setitem s t v1) = true) as Hp.
  { apply has_label_elem. exists v1. apply setitem_elem. }
  rewrite (setitem_present (pd.setitem s t v1)) by done.
  destruct (pd.has_label t s) eqn:E.
  - rewrite !setitem_present by done.
    rewrite <- list_fmap_compose. apply list_fmap_ext.
    intros _ [t' x] _. simpl. destruct (t' =? t) eqn:Et; simpl; by rewrite Et.
  - rewrite !setitem_absent by done. rewrite map_app. simpl.
    rewrite Z.eqb_refl. by rewrite setitem_unlabelled.
Qed.

Lemma ascending_snoc (ts : list Timestamp) (t : Timestamp) :
  ascending (ts ++ [t]) = true ↔
  ascending ts = true ∧ match last ts with Some t' => t' < t | None => True end.
Proof.
  induction ts as [|a [|b ts] IH]; simpl in *.
  - done.
  - rewrite andb_true_r, Z.ltb_lt. tauto.
  - rewrite !andb_true_iff, IH. tauto.
Qed.

Lemma ascending_last (ts : list Timestamp) (t : Timestamp) :
  ascending ts = true →
  match last ts with Some t' => t' < t | None => True end ↔ ∀ t', t' ∈ ts → t' < t.
Proof.
  induction ts as [|a [|b ts] IH]; simpl in *.
  - intros _. split; [intros _ t' Hin; by apply elem_of_nil in Hin|done].
  - intros _. split.
    + intros Ha t' ->%list_elem_of_singleton. done.
    + intros H. apply H. by left.
  - intros [Hab%Z.ltb_lt Hasc]%andb_true_iff. rewrite (IH Hasc). split.
    + intros H t' [->|Hin]%elem_of_cons; [|by apply H].
      specialize (H b). assert (b < t) by (apply H; by left). lia.
    + intros H t' Hin. apply H. by right.
Qed.

(** X6: the last write wins.  Two insertions at one timestamp leave the
    store that the second alone leaves; in particular an insertion done
    twice is an insertion done once. *)
Theorem add_value_last_write_wins (h : heap) (self l : loc) (s : Series)
    (t : Timestamp) (v1 v2 : float64) :
  stores h self l s →
  (TimeSeries.add_value self t v1;; TimeSeries.add_value self t v2) h
  = TimeSeries.add_value self t v2 h.
Proof.
  intros Hst.
  erewrite bind_return; [|by eapply add_value_run].
  rewrite (add_value_run _ self l (pd.setitem s t v1))
    by by eapply stores_update.
  rewrite (add_value_run h self l s) by done.
  by rewrite insert_insert_eq, setitem_setitem.
Qed.

Lemma add_value_last_write_wins_witness :
  (TimeSeries.add_value ts0 d2023_01_04 f1_0;;
   TimeSeries.add_value ts0 d2023_01_04 f5_0) heap1
  = TimeSeries.add_value ts0 d2023_01_04 f5_0 heap1.
Proof.
  apply (add_value_last_write_wins heap1 ts0 1%positive series_S).
  exact (stores_created heap0 1%positive series_S (PyStr "S") eq_refl).
Defined.

(** X7: an insertion moves no label.  The labels afterwards are the labels
    before, in their positions, when the timestamp is among them, and the
    labels before followed by the timestamp when it is new; so labels that
    are pairwise distinct stay pairwise distinct. *)
Theorem add_value_keeps_labels (h : heap) (self l : loc) (s : Series)
    (t : Timestamp) (v : float64) :
  stores h self l s →
  ∃ h' s', TimeSeries.add_value self t v h = (Return (), h')
         ∧ stores h' self l s'
         ∧ pd.index s' = (if pd.has_label t s then pd.index s else pd.index s ++ [t])
         ∧ (NoDup (pd.index s) → NoDup (pd.index s')).
Proof.
  intros Hst.
  exists (<[l := ObjSeries (pd.setitem s t v)]> h), (pd.setitem s t v).
  split; [by apply add_value_run|]. split; [by eapply stores_update|].
  split; [apply setitem_index|].
  rewrite setitem_index. destruct (pd.has_label t s) eqn:E; [done|].
  intros Hnd. apply NoDup_app. split; [done|]. split; [|apply NoDup_singleton].
  intros t' Hin ->%list_elem_of_singleton.
  by apply has_label_false_index in E.
Qed.

Lemma add_value_keeps_labels_witness :
  ∃ h' s', TimeSeries.add_value ts0 d2022_12_31 f5_0 heap1 = (Return (), h')
         ∧ stores h' ts0 1%positive s'
         ∧ pd.index s'
           = (if pd.has_label d2022_12_31 series_S then pd.index series_S
              else pd.index series_S ++ [d2022_12_31])
         ∧ (NoDup (pd.index series_S) → NoDup (pd.index s')).
Proof.
  apply (add_value_keeps_labels heap1 ts0 1%positive series_S).
  exact (stores_created heap0 1%positive series_S (PyStr "S") eq_refl).
Defined.

(** X8: nothing sorts.  On a Series whose labels are ascending, the labels
    after an insertion are ascending exactly when the timestamp was among
    them or is later than all of them. *)
Theorem add_value_ascending (h : heap) (self l : loc) (s : Series)
    (t : Timestamp) (v : float64) :
  stores h self l s →
  ascending (pd.index s) = true →
  ∃ h' s', TimeSeries.add_value self t v h = (Return (), h')
         ∧ stores h' self l s'
         ∧ (ascending (pd.index s') = true ↔
            pd.has_label t s = true ∨ ∀ t', t' ∈ pd.index s → t' < t).
Proof.
  intros Hst Hasc.
  exists (<[l := ObjSeries (pd.setitem s t v)]> h), (pd.setitem s t v).
  split; [by apply add_value_run|]. split; [by eapply stores_update|].
  rewrite setitem_index. destruct (pd.has_label t s) eqn:E.
  - split; [by left|done].
  - rewrite ascending_snoc, (ascending_last _ t Hasc). split.
    + intros [_ H]. by right.
    + intros [?|H]; [done|by split].
Qed.

Lemma add_value_ascending_witness :
  ∃ h' s', TimeSeries.add_value ts0 d2022_12_31 f5_0 heap1 = (Return (), h')
         ∧ stores h' ts0 1%positive s'
         ∧ (ascending (pd.index s') = true ↔
            pd.has_label d2022_12_31 series_S = true
            ∨ ∀ t', t' ∈ pd.index series_S → t' < d2022_12_31).
Proof.
  apply (add_value_ascending heap1 ts0 1%positive series_S).
  - exact (stores_created heap0 1%positive series_S (PyStr "S") eq_refl).
  - reflexivity.
Defined.

(** ** Replacing the data, and sharing it *)

(** X9: after [ts.data = T] for another Series T, an insertion goes into
    T and the summary is computed from T; the Series stored before is left
    as it was. *)
Theorem replace_then_add (h : heap) (self l l2 : loc) (s s2 : Series)
    (t : Timestamp) (v : float64) :
  stores h self l s →
  h !! l2 = Some (ObjSeries s2) →
  l2 ≠ l →
  ∃ h', replace_add_summary self (PyRef l2) t v h
        = (Return (summarize (pd.setitem s2 t v)), h')
      ∧ TimeSeries.data self h' = (Return (PyRef l2), h')
      ∧ h' !! l2 = Some (ObjSeries (pd.setitem s2 t v))
      ∧ h' !! l = Some (ObjSeries s).
Proof.
  intros Hst Hl2 Hne. pose proof (stores_ne _ _ _ _ Hst) as Hsl.
  destruct Hst as (attrs & Hself & Hd & Hl).
  pose proof (stores_data_setter h self l2 s2 attrs Hself Hl2) as Hst1.
  set (h1 := <[self := ObjInstance (<["_data" := PyRef l2]> attrs)]> h) in *.
  pose proof (stores_update h1 self l2 s2 (pd.setitem s2 t v) Hst1) as Hst2.
  exists (<[l2 := ObjSeries (pd.setitem s2 t v)]> h1).
  split; [|split; [by eapply data_run|split; [apply lookup_insert_eq|]]].
  - unfold replace_add_summary.
    erewrite bind_return;
      [|apply (data_setter_ok h self attrs); [done|simpl; by rewrite Hl2]].
    erewrite bind_return; [|by eapply add_value_run].
    by eapply get_summary_run.
  - subst h1. by rewrite !lookup_insert_ne.
Qed.

Lemma replace_then_add_witness :
  ∃ h', replace_add_summary ts0 (PyRef 2%positive) d2023_01_04 f5_0 heap1
        = (Return (summarize (pd.setitem [] d2023_01_04 f5_0)), h')
      ∧ TimeSeries.data ts0 h' = (Return (PyRef 2%positive), h')
      ∧ h' !! 2%positive = Some (ObjSeries (pd.setitem [] d2023_01_04 f5_0))
      ∧ h' !! 1%positive = Some (ObjSeries series_S).
Proof.
  apply (replace_then_add heap1 ts0 1%positive 2%positive series_S []).
  - exact (stores_created heap0 1%positive series_S (PyStr "S") eq_refl).
  - reflexivity.
  - discriminate.
Defined.

(** X10: writing back what was read changes nothing: [ts.data = ts.data]
    returns normally and the store is as before. *)
Theorem data_write_back (h : heap) (self l : loc) (s : Series) :
  stores h self l s →
  (TimeSeries.data self ≫= TimeSeries.data_setter self) h = (Return (), h).
Proof.
  intros Hst. erewrite bind_return; [|by eapply data_run].
  destruct Hst as (attrs & Hself & Hd & Hl).
  rewrite (data_setter_ok h self attrs) by (done || (simpl; by rewrite Hl)).
  by rewrite (insert_id attrs), (insert_id h).
Qed.

Lemma data_write_back_witness :
  (TimeSeries.data ts0 ≫= TimeSeries.data_setter ts0) heap1 = (Return (), heap1).
Proof.
  apply (data_write_back heap1 ts0 1%positive series_S).
  exact (stores_created heap0 1%positive series_S (PyStr "S") eq_refl).
Defined.

Lemma stores_created_frame (h : heap) (b l : loc) (s : Series) (data name : pyval) :
  stores h b l s → stores (created h data name) b l s.
Proof.
  intros (attrs & Hself & Hd & Hl). exists attrs. unfold created.
  rewrite !lookup_insert_ne; [done| |].
  - intros E. rewrite <- E, fresh_None in Hl. done.
  - intros E. rewrite <- E, fresh_None in Hself. done.
Qed.

(** X11: instances that store one Series object see each other's
    insertions, and instances that store different objects do not: after
    [a.add_value(t, v)] the summary of b is that of the updated Series when
    b stores the object that a stores, and that of b's own, unchanged,
    Series otherwise. *)
Theorem add_value_seen_by_sharers (h : heap) (a b l l' : loc) (s s' : Series)
    (t : Timestamp) (v : float64) :
  stores h a l s →
  stores h b l' s' →
  ∃ h', TimeSeries.add_value a t v h = (Return (), h')
      ∧ (l' = l →
         TimeSeries.get_summary b h' = (Return (summarize (pd.setitem s t v)), h'))
      ∧ (l' ≠ l → TimeSeries.get_summary b h' = (Return (summarize s'), h')).
Proof.
  intros Ha Hb. exists (<[l := ObjSeries (pd.setitem s t v)]> h).
  split; [by apply add_value_run|]. split.
  - intros ->. by eapply get_summary_run, stores_update.
  - intros Hne. eapply get_summary_run.
    destruct Hb as (attrs & Hself & Hd & Hl).
    exists attrs. rewrite !lookup_insert_ne; [done|done|].
    intros ->. destruct Ha as (? & ? & ? & ?). congruence.
Qed.

Lemma add_value_seen_by_sharers_witness :
  ∃ h', TimeSeries.add_value ts0 d2023_01_04 f5_0
          (created heap1 (PyRef 2%positive) (PyStr "b")) = (Return (), h')
      ∧ (2%positive = 1%positive →
         TimeSeries.get_summary (fresh (dom heap1)) h'
         = (Return (summarize (pd.setitem series_S d2023_01_04 f5_0)), h'))
      ∧ (2%positive ≠ 1%positive →
         TimeSeries.get_summary (fresh (dom heap1)) h'
         = (Return (summarize []), h')).
Proof.
  apply (add_value_seen_by_sharers
           (created heap1 (PyRef 2%positive) (PyStr "b"))
           ts0 (fresh (dom heap1)) 1%positive 2%positive series_S []).
  - apply stores_created_frame.
    exact (stores_created heap0 1%positive series_S (PyStr "S") eq_refl).
  - exact (stores_created heap1 2%positive [] (PyStr "b") eq_refl).
Defined.

(** X12: construction takes no copy.  Two instances made from one Series
    are different objects that store the same Series: a point added
    through the first shows in the summary of the second. *)
Theorem construction_shares_the_series (h : heap) (l : loc) (s : Series)
    (t : Timestamp) (v : float64) :
  h !! l = Some (ObjSeries s) →
  ∃ a b h2 h3,
    TimeSeries.create (PyRef l) (PyStr "a") h = (Return a, created h (PyRef l) (PyStr "a"))
    ∧ TimeSeries.create (PyRef l) (PyStr "b") (created h (PyRef l) (PyStr "a"))
      = (Return b, h2)
    ∧ a ≠ b
    ∧ stores h2 a l s ∧ stores h2 b l s
    ∧ two_views (PyRef l) t v h = (Return (summarize (pd.setitem s t v)), h3).
Proof.
  intros Hl.
  set (h1 := created h (PyRef l) (PyStr "a")).
  pose proof (stores_created h l s (PyStr "a") Hl) as Ha1. fold h1 in Ha1.
  assert (h1 !! l = Some (ObjSeries s)) as Hl1
    by (by destruct Ha1 as (? & _ & _ & ?)).
  pose proof (stores_created h1 l s (PyStr "b") Hl1) as Hb.
  pose proof (stores_created_frame h1 _ l s (PyRef l) (PyStr "b") Ha1) as Ha.
  assert (isinstance_Series h (PyRef l) = true) as Hi by (simpl; by rewrite Hl).
  assert (isinstance_Series h1 (PyRef l) = true) as Hi1 by (simpl; by rewrite Hl1).
  exists (fresh (dom h)), (fresh (dom h1)), (created h1 (PyRef l) (PyStr "b")).
  eexists. split; [by apply create_ok|]. split; [by apply create_ok|].
  split.
  { intros E. destruct Ha1 as (attrs & Hself & _).
    rewrite E, fresh_None in Hself. done. }
  split; [done|]. split; [done|].
  unfold two_views.
  erewrite bind_return; [|by apply create_ok].
  erewrite bind_return; [|by apply create_ok].
  erewrite bind_return; [|by eapply add_value_run].
  by eapply get_summary_run, stores_update.
Qed.

Lemma construction_shares_the_series_witness :
  ∃ a b h2 h3,
    TimeSeries.create (PyRef 1%positive) (PyStr "a") heap0
    = (Return a, created heap0 (PyRef 1%positive) (PyStr "a"))
    ∧ TimeSeries.create (PyRef 1%positive) (PyStr "b")
        (created heap0 (PyRef 1%positive) (PyStr "a")) = (Return b, h2)
    ∧ a ≠ b
    ∧ stores h2 a 1%positive series_S ∧ stores h2 b 1%positive series_S
    ∧ two_views (PyRef 1%positive) d2023_01_04 f5_0 heap0
      = (Return (summarize (pd.setitem series_S d2023_01_04 f5_0)), h3).
Proof.
  apply (construction_shares_the_series heap0 1%positive series_S).
  reflexivity.
Defined.

(** ** Edges of the summary *)

Lemma div_nan (x : float64) : F64.div x F64.nan = F64.nan.
Proof. by destruct x. Qed.

Lemma count_zero_filter (values : list float64) :
  nanops.count values = 0%nat →
  filter (λ x, F64.notna x = true) values = [].
Proof. unfold nanops.count. by intros H%length_zero_iff_nil. Qed.

(** X13: the standard deviation needs two numbers.  When fewer than two of
    the stored values are numbers, [get_summary] returns normally and its
    'std' is NaN. *)
Theorem std_needs_two_numbers (h : heap) (self l : loc) (s : Series) :
  stores h self l s →
  (nanops.count (pd.values s) ≤ 1)%nat →
  ∃ r, TimeSeries.get_summary self h = (Return r, h) ∧ s_std r = F64.nan.
Proof.
  intros Hst Hc. exists (summarize s). split; [by eapply get_summary_run|].
  simpl. unfold pd.std, nanops.nanstd, nanops.nanvar.
  apply Nat.leb_le in Hc. rewrite Hc. by rewrite div_nan.
Qed.

Lemma std_needs_two_numbers_witness :
  ∃ r, TimeSeries.get_summary ts0
         (<[1%positive := ObjSeries [(d2023_01_01, f1_0)]]> heap1)
       = (Return r, <[1%positive := ObjSeries [(d2023_01_01, f1_0)]]> heap1)
     ∧ s_std r = F64.nan.
Proof.
  apply (std_needs_two_numbers _ ts0 1%positive [(d2023_01_01, f1_0)]).
  - apply (stores_update heap1 ts0 1%positive series_S).
    exact (stores_created heap0 1%positive series_S (PyStr "S") eq_refl).
  - vm_compute. lia.
Defined.

(** X14: a Series without a single number, empty or all NaN: [get_summary]
    returns normally, 'length' counts every element, and the mean, median,
    standard deviation, minimum and maximum are NaN. *)
Theorem summary_without_numbers (h : heap) (self l : loc) (s : Series) :
  stores h self l s →
  nanops.count (pd.values s) = 0%nat →
  TimeSeries.get_summary self h
  = (Return (Summary F64.nan F64.nan F64.nan F64.nan F64.nan (length s)), h).
Proof.
  intros Hst Hc. rewrite (get_summary_run h self l s) by done.
  unfold summarize, pd.mean, pd.median, pd.std, pd.min, pd.max, pd.len.
  unfold nanops.nanmean, nanops.nanmedian, nanops.nanstd, nanops.nanvar,
    nanops.nanmin, nanops.nanmax, nanops.maybe_null_out.
  rewrite (count_zero_filter _ Hc), Hc. simpl. rewrite div_nan. simpl.
  by destruct (nanops.fill_na F64.pinf (pd.values s)),
              (nanops.fill_na F64.ninf (pd.values s)).
Qed.

Lemma summary_without_numbers_witness :
  TimeSeries.get_summary ts0
    (<[1%positive := ObjSeries [(d2023_01_01, F64.nan); (d2023_01_02, F64.nan)]]> heap1)
  = (Return (Summary F64.nan F64.nan F64.nan F64.nan F64.nan 2),
     <[1%positive := ObjSeries [(d2023_01_01, F64.nan); (d2023_01_02, F64.nan)]]> heap1).
Proof.
  apply (summary_without_numbers _ ts0 1%positive
           [(d2023_01_01, F64.nan); (d2023_01_02, F64.nan)]).
  - apply (stores_update heap1 ts0 1%positive series_S).
    exact (stores_created heap0 1%positive series_S (PyStr "S") eq_refl).
  - reflexivity.
Defined.
